(** * LightweightEncryption: the key-generation scripts

    A shallow embedding of [scripts/custom_exceptions.py],
    [scripts/azure_helpers.py] and [scripts/generate_encryptionkeys_azure.py].

    Python values are a small inductive type, exceptions are an inductive
    type, and the effects of the scripts (logger calls, invocations of the
    Azure CLI, the sleeps of the retry decorator, [logging.disable]) are
    threaded through a state-and-exception monad.  The Azure CLI, the JSON
    decoder, the clock, the login name and the random generator are the
    fields of an environment record. *)

From Stdlib Require Import String Ascii List ZArith Lia Bool DecimalString.
Import ListNotations.
Open Scope string_scope.
Open Scope Z_scope.

Set Implicit Arguments.
Set Warnings "-register-all".

(* ================================================================= *)
(** ** Python strings *)

Module PyStr.

(** [s.split(c)] for a one-character separator [c]. *)
Fixpoint split (c : ascii) (s : string) : list string :=
  match s with
  | EmptyString => [EmptyString]
  | String a s' =>
      if Ascii.eqb a c then EmptyString :: split c s'
      else match split c s' with
           | [] => [String a EmptyString]
           | w :: ws => String a w :: ws
           end
  end.

(** [sep.join(l)]. *)
Definition join (sep : string) (l : list string) : string :=
  String.concat sep l.

(** [pat in s]. *)
Definition contains (pat s : string) : bool :=
  match String.index 0 pat s with
  | Some _ => true
  | None => false
  end.

(** [s.replace(old, new)]: the occurrences of [old] are replaced from
    left to right without overlap; [skip] counts the characters of an
    occurrence that are still to be dropped. *)
Fixpoint replace_from (old new : string) (skip : nat) (s : string) : string :=
  match s with
  | EmptyString => EmptyString
  | String a s' =>
      match skip with
      | S k => replace_from old new k s'
      | O =>
          if String.prefix old s
          then new ++ replace_from old new (Nat.pred (String.length old)) s'
          else String a (replace_from old new O s')
      end
  end.

Fixpoint intersperse (new s : string) : string :=
  match s with
  | EmptyString => new
  | String a s' => new ++ String a (intersperse new s')
  end.

Definition replace (old new s : string) : string :=
  match old with
  | EmptyString => intersperse new s
  | _ => replace_from old new O s
  end.

(** [s.lower()] on ASCII text. *)
Definition lower_ascii (a : ascii) : ascii :=
  let n := nat_of_ascii a in
  if ((65 <=? n) && (n <=? 90))%nat then ascii_of_nat (n + 32) else a.

Fixpoint lower (s : string) : string :=
  match s with
  | EmptyString => EmptyString
  | String a s' => String (lower_ascii a) (lower s')
  end.

(** [str(z)] for an integer. *)
Definition of_Z (z : Z) : string := NilZero.string_of_int (Z.to_int z).

(** Number of occurrences of the character [c]. *)
Fixpoint count (c : ascii) (s : string) : nat :=
  match s with
  | EmptyString => O
  | String a s' => ((if Ascii.eqb a c then 1 else 0) + count c s')%nat
  end.

Definition truthy (s : string) : bool :=
  match s with EmptyString => false | _ => true end.

End PyStr.

(* ================================================================= *)
(** ** Python values and exceptions *)

(** The values the scripts handle: what [json.loads] can return, the
    strings and dictionaries of the command line, [None] and [True]. *)
Inductive value : Type :=
| VNone
| VBool (b : bool)
| VInt (z : Z)
| VFloat (repr : string)
| VStr (s : string)
| VList (l : list value)
| VDict (d : list (string * value)).

(** Python truthiness, as used by [if x], [not x] and [x if x else y]. *)
Definition truthy (v : value) : bool :=
  match v with
  | VNone => false
  | VBool b => b
  | VInt z => negb (z =? 0)
  | VFloat r => negb (String.eqb r "0.0" || String.eqb r "-0.0")
  | VStr s => PyStr.truthy s
  | VList l => match l with [] => false | _ => true end
  | VDict d => match d with [] => false | _ => true end
  end.

(** An optional command-line argument: [None] when the flag is absent. *)
Definition of_opt (o : option string) : value :=
  match o with
  | None => VNone
  | Some s => VStr s
  end.

(** The [code] attribute of a [SystemExit]. *)
Inductive exit_status : Type :=
| ExitInt (z : Z)
| ExitNone
| ExitMsg (s : string).

(** [system_exit.code == n] for an integer literal [n]. *)
Definition code_is (c : exit_status) (n : Z) : bool :=
  match c with
  | ExitInt z => z =? n
  | _ => false
  end.

(** [custom_exceptions.py], [tenacity.RetryError] (which wraps the
    exception of the last attempt) and the built-in exceptions the scripts
    can run into. *)
Inductive exn : Type :=
| AzCliServiceUnavailableException (msg : string)
| AzCliAccessException (msg : string)
| AzCliResourceNotFoundException (msg : string)
| AzCliExecutionException (msg : string)
| RetryError (last_attempt : future)
| TypeError
| IndexError
| KeyError
| AttributeError
| ValueError
| OSError
| SystemExit (code : exit_status)

(** The outcome of one attempt, as tenacity's [Future] holds it. *)
with future : Type :=
| Result (v : value)
| Failed (e : exn).

(** The four typed failures of [custom_exceptions.py]. *)
Definition is_typed_failure (e : exn) : bool :=
  match e with
  | AzCliServiceUnavailableException _
  | AzCliAccessException _
  | AzCliResourceNotFoundException _
  | AzCliExecutionException _ => true
  | _ => false
  end.


(* ================================================================= *)
(** ** Effects *)

(** Logging levels of the [logging] module. *)
Definition NOTSET : Z := 0.
Definition INFO : Z := 20.
Definition ERROR : Z := 40.

(** What the process does to the outside: a record emitted by the logger,
    an invocation of the Azure CLI with its argument list, a sleep of the
    retry decorator. *)
Inductive event : Type :=
| Log (lvl : Z) (fmt : string) (args : list value)
| Invoke (args : list string)
| Sleep (secs : Z).

(** The process state: the events so far, oldest first, and the level set
    by [logging.disable]. *)
Record state : Type := mkState {
  trace : list event;
  disabled : Z
}.

(** The outcome of a computation.  [Diverged] is what a loop of the model
    yields when its fuel runs out; it is not a Python outcome. *)
Inductive res (A : Type) : Type :=
| Ok (a : A)
| Raise (e : exn)
| Diverged.

Arguments Ok {A} a.
Arguments Raise {A} e.
Arguments Diverged {A}.

Definition M (A : Type) : Type := state -> res A * state.

Definition ret {A} (a : A) : M A := fun st => (Ok a, st).

Definition raise {A} (e : exn) : M A := fun st => (Raise e, st).

Definition bind {A B} (m : M A) (f : A -> M B) : M B :=
  fun st =>
    match m st with
    | (Ok a, st') => f a st'
    | (Raise e, st') => (Raise e, st')
    | (Diverged, st') => (Diverged, st')
    end.

Notation "x <- m ;; k" := (bind m (fun x => k))
  (at level 61, m at next level, right associativity).
Notation "m ;; k" := (bind m (fun _ => k))
  (at level 61, right associativity).

(** [try: body  except ...: handler].  The handler decides which
    exceptions it catches and re-raises the others. *)
Definition try_except {A} (body : M A) (handler : exn -> M A) : M A :=
  fun st =>
    match body st with
    | (Raise e, st') => handler e st'
    | r => r
    end.

(** [try: body  finally: fin], for a [fin] that does not raise. *)
Definition try_finally {A} (body : M A) (fin : M unit) : M A :=
  fun st =>
    match body st with
    | (r, st') => (r, snd (fin st'))
    end.

Definition emit (e : event) : M unit :=
  fun st => (Ok tt, mkState (trace st ++ [e])%list (disabled st)).

(** [logging.disable(level)]. *)
Definition logging_disable (lvl : Z) : M unit :=
  fun st => (Ok tt, mkState (trace st) lvl).

(** A call of the module's logger at level [lvl]: the logger and its
    handler are at level INFO ([logger.py]), and [logging.disable(l)]
    silences every call of level [l] or below. *)
Definition isEnabledFor (lvl : Z) (st : state) : bool :=
  (disabled st <? lvl) && (INFO <=? lvl).

Definition logger_log (lvl : Z) (fmt : string) (args : list value) : M unit :=
  fun st =>
    if isEnabledFor lvl st
    then emit (Log lvl fmt args) st
    else (Ok tt, st).

Definition logger_info := logger_log INFO.
Definition logger_error := logger_log ERROR.

(** [time.sleep(secs)], as called by tenacity between two attempts. *)
Definition sleep (secs : Z) : M unit := emit (Sleep secs).

(** The invocations of the Azure CLI so far. *)
Fixpoint invocations (tr : list event) : list (list string) :=
  match tr with
  | [] => []
  | Invoke a :: tr' => a :: invocations tr'
  | _ :: tr' => invocations tr'
  end.

(** The sleeps so far. *)
Fixpoint sleeps (tr : list event) : list Z :=
  match tr with
  | [] => []
  | Sleep s :: tr' => s :: sleeps tr'
  | _ :: tr' => sleeps tr'
  end.

Definition is_log (e : event) : bool :=
  match e with
  | Log _ _ _ => true
  | _ => false
  end.

(* ================================================================= *)
(** ** The environment of the scripts *)

(** What [az_cli.invoke] does: it returns an exit code, or a [SystemExit]
    leaves it. *)
Inductive invoke_outcome : Type :=
| Returns (exit_code : Z)
| Exits (code : exit_status).

(** knack's [CommandResultItem], of which the scripts read the [error]
    attribute only: [None], or an exception object given by its [str()]. *)
Record CommandResultItem : Type := mkResult {
  error : option string
}.

(** One run of the Azure CLI: how [invoke] ended, what was written to
    [az_cli.out_file], and [az_cli.result] afterwards. *)
Record cli_run : Type := mkRun {
  invoked : invoke_outcome;
  out_file : string;
  result : option CommandResultItem
}.

(** A naive [datetime]. *)
Record datetime : Type := mkDatetime {
  year : Z;
  month : Z;
  day : Z;
  hour : Z;
  minute : Z;
  second : Z;
  microsecond : Z
}.

Record Env : Type := mkEnv {
  (** the Azure CLI: its run on an argument list, given the argument
      lists of the earlier invocations *)
  cli : list (list string) -> list string -> cli_run;
  (** [json.loads]; [None] stands for [json.JSONDecodeError] *)
  json_loads : string -> option value;
  (** [datetime.now()] *)
  now : datetime;
  (** [os.getlogin()]; [None] stands for [OSError] *)
  getlogin : option string;
  (** [secrets.token_hex(nbytes)] *)
  token_hex : Z -> string;
  (** [__file__] *)
  script_file : string;
  (** the module constant, computed when the module is imported *)
  DEFAULT_ENCRYPTION_KEY_EXPIRATION : string
}.

(* ================================================================= *)
(** ** tenacity's retry decorator *)

Module Tenacity.

Record RetryCallState : Type := mkRetryCallState {
  attempt_number : nat;
  outcome : option future
}.

(** The three policies of a [Retrying] object. *)
Record Retrying : Type := mkRetrying {
  wait : RetryCallState -> Z;
  stop : RetryCallState -> bool;
  retry : RetryCallState -> bool
}.

Definition wait_fixed (secs : Z) : RetryCallState -> Z :=
  fun _ => secs.

Definition stop_after_attempt (max_attempt_number : nat)
  : RetryCallState -> bool :=
  fun rs => (max_attempt_number <=? attempt_number rs)%nat.

Definition retry_if_exception_type (is_instance : exn -> bool)
  : RetryCallState -> bool :=
  fun rs =>
    match outcome rs with
    | Some (Failed e) => is_instance e
    | _ => false
    end.

Inductive action : Type :=
| DoAttempt
| DoSleep (secs : Z)
| Return (v : value)
| Throw (e : exn).

(** [Retrying.iter], with [reraise] left at its default [False]: when
    the stop policy fires, a [RetryError] holding the last attempt is
    raised. *)
Definition iter (r : Retrying) (rs : RetryCallState) : action :=
  match outcome rs with
  | None => DoAttempt
  | Some fut =>
      if negb (retry r rs) then
        match fut with
        | Result v => Return v
        | Failed e => Throw e
        end
      else if stop r rs then Throw (RetryError fut)
      else DoSleep (wait r rs)
  end.

Definition set_outcome (rs : RetryCallState) (fut : future) : RetryCallState :=
  mkRetryCallState (attempt_number rs) (Some fut).

Definition prepare_for_next_attempt (rs : RetryCallState) : RetryCallState :=
  mkRetryCallState (S (attempt_number rs)) None.

(** [Retrying.__call__]: the [while True] loop, with fuel. *)
Fixpoint call (fuel : nat) (r : Retrying) (fn : M value)
  (rs : RetryCallState) : M value :=
  match fuel with
  | O => fun st => (Diverged, st)
  | S fuel' =>
      match iter r rs with
      | DoAttempt =>
          fun st =>
            match fn st with
            | (Ok v, st') => call fuel' r fn (set_outcome rs (Result v)) st'
            | (Raise e, st') => call fuel' r fn (set_outcome rs (Failed e)) st'
            | (Diverged, st') => (Diverged, st')
            end
      | DoSleep secs =>
          sleep secs ;;
          call fuel' r fn (prepare_for_next_attempt rs)
      | Return v => ret v
      | Throw e => raise e
      end
  end.

Definition initial : RetryCallState := mkRetryCallState 1 None.

End Tenacity.

(* ================================================================= *)
(** ** azure_helpers.py *)

(** [str(e)] of the [error] attribute. *)
Definition str_error (e : option string) : string :=
  match e with
  | None => "None"
  | Some s => s
  end.

Definition value_of_status (c : exit_status) : value :=
  match c with
  | ExitInt z => VInt z
  | ExitNone => VNone
  | ExitMsg s => VStr s
  end.

(** [next((x for x in v), None)]. *)
Definition first_item (v : value) : M value :=
  match v with
  | VList [] => ret VNone
  | VList (x :: _) => ret x
  | VStr EmptyString => ret VNone
  | VStr (String a _) => ret (VStr (String a EmptyString))
  | VDict [] => ret VNone
  | VDict ((k, _) :: _) => ret (VStr k)
  | _ => raise TypeError
  end.

Fixpoint dict_get {A} (k : string) (d : list (string * A)) : option A :=
  match d with
  | [] => None
  | (k', v) :: d' => if String.eqb k' k then Some v else dict_get k d'
  end.

(** [v[k]] for a string key. *)
Definition getitem_str (v : value) (k : string) : M value :=
  match v with
  | VDict d =>
      match dict_get k d with
      | Some x => ret x
      | None => raise KeyError
      end
  | _ => raise TypeError
  end.

(** [v[0]]. *)
Definition getitem_0 (v : value) : M value :=
  match v with
  | VList [] => raise IndexError
  | VList (x :: _) => ret x
  | VStr EmptyString => raise IndexError
  | VStr (String a _) => ret (VStr (String a EmptyString))
  | VDict _ => raise KeyError
  | _ => raise TypeError
  end.

(** [v.lower()]. *)
Definition method_lower (v : value) : M string :=
  match v with
  | VStr s => ret (PyStr.lower s)
  | _ => raise AttributeError
  end.

(** [v.split('/')]. *)
Definition method_split_slash (v : value) : M (list string) :=
  match v with
  | VStr s => ret (PyStr.split "/" s)
  | _ => raise AttributeError
  end.

Definition is_not_none (v : value) : bool :=
  match v with
  | VNone => false
  | _ => true
  end.

Definition is_service_unavailable (e : exn) : bool :=
  match e with
  | AzCliServiceUnavailableException _ => true
  | _ => false
  end.

Definition is_resource_not_found (e : exn) : bool :=
  match e with
  | AzCliResourceNotFoundException _ => true
  | _ => false
  end.

Definition connection_pool_message : string :=
  "HTTPSConnectionPool(host='management.azure.com', port=443): Max retries exceeded with url".

(** The argument list [set_secret] builds, lines 69-80. *)
Definition set_secret_args (key_vault secret_name secret_value content_type
                              expiration_date : string)
  (tags : option (list (string * string))) : list string :=
  let args := ["keyvault"; "secret"; "set"; "--query"; "[id]";
               "--vault-name"; key_vault;
               "--name"; secret_name;
               "--value"; secret_value;
               "--content-type"; content_type] in
  let args :=
    if PyStr.truthy expiration_date
    then (args ++ ["--expires"; expiration_date])%list
    else args in
  match tags with
  | Some d =>
      fold_left
        (fun a kv => (a ++ ["--tags"; (fst kv ++ "=" ++ snd kv)%string])%list)
        d args
  | None => args
  end.

Section AzureHelpers.

Variable env : Env.

(** [az_cli.invoke(args)]: the run is the environment's, and the
    invocation is recorded. *)
Definition az_cli_invoke (args : list string) : M cli_run :=
  fun st =>
    (Ok (cli env (invocations (trace st)) args),
     mkState (trace st ++ [Invoke args])%list (disabled st)).

(** The body of [az], lines 87-146, before the decorator. *)
Definition az_wrapped (args : list string)
  (redact_values : option (list string)) : M value :=
  let args_with_output := (args ++ ["--output"; "json"])%list in
  let args_to_log := PyStr.join " " args_with_output in
  let args_to_log :=
    match redact_values with
    | Some l =>
        fold_left (fun a redact => PyStr.replace redact "*****" a)
          l args_to_log
    | None => args_to_log
    end in
  logger_info "az - Executing az %s" [VStr args_to_log] ;;
  let exit_code := 0 in
  r <- try_finally
         (logging_disable ERROR ;;
          run <- az_cli_invoke args_with_output ;;
          match invoked run with
          | Returns exit_code => ret (exit_code, run)
          | Exits code =>
              if code_is code 3 then
                raise (AzCliResourceNotFoundException
                         ("Exit Code:" ++ PyStr.of_Z exit_code))
              else if code_is code 1
                      && match result run with
                         | Some res =>
                             PyStr.contains connection_pool_message
                               (str_error (error res))
                         | None => false
                         end
              then
                raise (AzCliServiceUnavailableException
                         ("Exit Code:" ++ PyStr.of_Z exit_code))
              else
                logger_error "az - Command failed with exit code: %s"
                  [value_of_status code] ;;
                raise (AzCliExecutionException
                         ("Exit Code:" ++ PyStr.of_Z exit_code))
          end)
         (logging_disable NOTSET) ;;
  let '(exit_code, run) := r in
  let output := out_file run in
  if PyStr.truthy output && (exit_code =? 0) then
    match json_loads env output with
    | Some v => ret v
    | None =>
        logger_error "az - Failed to decode output: %s" [VStr output] ;;
        raise (AzCliExecutionException
                 ("Exit Code:" ++ PyStr.of_Z exit_code))
    end
  else
    match result run with
    | Some (mkResult (Some err)) =>
        logger_error "az - Command failed with error: %s" [VStr err] ;;
        raise (AzCliExecutionException
                 ("Exit Code:" ++ PyStr.of_Z exit_code
                  ++ ", Result:" ++ err))
    | _ => ret VNone
    end.

(** The decorator of line 86. *)
Definition az_retrying : Tenacity.Retrying :=
  Tenacity.mkRetrying
    (Tenacity.wait_fixed 5)
    (Tenacity.stop_after_attempt 5)
    (Tenacity.retry_if_exception_type is_service_unavailable).

(** Enough iterations of the decorator's loop for five attempts: five
    calls, four sleeps, and the last look at the outcome. *)
Definition az_fuel : nat := 10.

(** The decorated [az]. *)
Definition az (args : list string) (redact_values : option (list string))
  : M value :=
  Tenacity.call az_fuel az_retrying (az_wrapped args redact_values)
    Tenacity.initial.

Definition select_subscription (subscription_id : string) : M unit :=
  let args := ["account"; "list"; "--query"; "[?isDefault]"] in
  accounts <- az args None ;;
  subscription <- first_item accounts ;;
  if negb (truthy subscription) then
    raise (AzCliAccessException
             ("Not Logged into az cli or can't access subscription: "
              ++ subscription_id))
  else
    id <- getitem_str subscription "id" ;;
    id_lower <- method_lower id ;;
    (if negb (String.eqb id_lower (PyStr.lower subscription_id)) then
       let args := ["account"; "set"; "--subscription"; subscription_id] in
       az args None ;; ret tt
     else ret tt) ;;
    logger_info "Selected subscription: '%s'" [VStr subscription_id].

Definition group_exists (resource_group : string) : M bool :=
  try_except
    (let args := ["group"; "show"; "--name"; resource_group] in
     r <- az args None ;;
     ret (is_not_none r))
    (fun e => if is_resource_not_found e then ret false else raise e).

Definition vault_exists (resource_group vault_name : string) : M bool :=
  try_except
    (let args := ["keyvault"; "show"; "--name"; vault_name;
                  "--resource-group"; resource_group] in
     r <- az args None ;;
     ret (is_not_none r))
    (fun e => if is_resource_not_found e then ret false else raise e).

Definition set_secret (key_vault secret_name secret_value content_type
                         expiration_date : string)
  (tags : option (list (string * string))) : M value :=
  az (set_secret_args key_vault secret_name secret_value content_type
        expiration_date tags) None.

Definition set_secret_and_get_secret_version
  (key_vault secret_name secret_value content_type expiration_date : string)
  (tags : option (list (string * string))) : M string :=
  secret_id_list <- set_secret key_vault secret_name secret_value
                      content_type expiration_date tags ;;
  first <- getitem_0 secret_id_list ;;
  parts <- method_split_slash first ;;
  ret (last parts EmptyString).

End AzureHelpers.

(* ================================================================= *)
(** ** Dates: [datetime.strptime(date, "%Y-%m-%d")] and [<] *)

Module Date.

Definition is_digit (a : ascii) : bool :=
  let n := nat_of_ascii a in ((48 <=? n) && (n <=? 57))%nat.

Definition digit (a : ascii) : Z := Z.of_nat (nat_of_ascii a) - 48.

Definition between (lo hi : Z) (a : ascii) : bool :=
  is_digit a && (lo <=? digit a) && (digit a <=? hi).

Fixpoint all_digits (s : string) : bool :=
  match s with
  | EmptyString => true
  | String a s' => is_digit a && all_digits s'
  end.

(** [int(s)] for a string of digits, after an optional blank. *)
Fixpoint int_from (acc : Z) (s : string) : Z :=
  match s with
  | EmptyString => acc
  | String a s' =>
      if is_digit a then int_from (10 * acc + digit a) s'
      else int_from acc s'
  end.

Definition int (s : string) : Z := int_from 0 s.

(** The directive [%Y]: four digits. *)
Definition year_form (s : string) : bool :=
  (String.length s =? 4)%nat && all_digits s.

(** The directive [%m]: [1[0-2]|0[1-9]|[1-9]]. *)
Definition month_form (s : string) : bool :=
  match s with
  | String a EmptyString => between 1 9 a
  | String a (String b EmptyString) =>
      (Ascii.eqb a "1" && between 0 2 b)
      || (Ascii.eqb a "0" && between 1 9 b)
  | _ => false
  end.

(** The directive [%d]: [3[01]|[12]\d|0[1-9]|[1-9]| [1-9]]. *)
Definition day_form (s : string) : bool :=
  match s with
  | String a EmptyString => between 1 9 a
  | String a (String b EmptyString) =>
      (Ascii.eqb a "3" && between 0 1 b)
      || (between 1 2 a && is_digit b)
      || (Ascii.eqb a "0" && between 1 9 b)
      || (Ascii.eqb a " " && between 1 9 b)
  | _ => false
  end.

Definition is_leap (y : Z) : bool :=
  ((y mod 4 =? 0) && negb (y mod 100 =? 0)) || (y mod 400 =? 0).

Definition days_in_month (y m : Z) : Z :=
  if m =? 2 then (if is_leap y then 29 else 28)
  else if (m =? 4) || (m =? 6) || (m =? 9) || (m =? 11) then 30
  else 31.

(** The date at midnight, or [None] for [ValueError]: the text has to
    match the three directives separated by dashes, the year has to be
    at least 1 and the day has to exist in the month. *)
Definition strptime (s : string) : option datetime :=
  match PyStr.split "-" s with
  | [y; m; d] =>
      if year_form y && month_form m && day_form d then
        let Y := int y in
        let Mo := int m in
        let D := int d in
        if (1 <=? Y) && (D <=? days_in_month Y Mo)
        then Some (mkDatetime Y Mo D 0 0 0 0)
        else None
      else None
  | _ => None
  end.

Definition fields (d : datetime) : list Z :=
  [year d; month d; day d; hour d; minute d; second d; microsecond d].

Fixpoint lex_lt (a b : list Z) : bool :=
  match a, b with
  | x :: a', y :: b' => (x <? y) || ((x =? y) && lex_lt a' b')
  | _, _ => false
  end.

(** [d1 < d2] on naive datetimes. *)
Definition lt (d1 d2 : datetime) : bool := lex_lt (fields d1) (fields d2).

End Date.

(* ================================================================= *)
(** ** generate_encryptionkeys_azure.py *)

(** The parsed command line: the four required options are strings, the
    five others are [None] when the option is not given. *)
Module Namespace.
Record t : Type := mk {
  subscription_id : string;
  resource_group : string;
  location : string;
  vault_name : string;
  key_name : option string;
  key_version_name : option string;
  expiration : option string;
  tags : option string;
  dry_run : option string
}.
End Namespace.

Definition DEFAULT_ENCRYPTION_KEY_LEN : Z := 32.
Definition DEFAULT_ENCRYPTION_KEY_NAME : string :=
  "secret--encryption--symmetricKey".
Definition DEFAULT_ENCRYPTION_KEY_VERSION_NAME : string :=
  "secret--encryption--symmetricKeyVersion".

(** [d[k] = v]: an existing key keeps its place. *)
Fixpoint dict_set {A} (k : string) (v : A) (d : list (string * A))
  : list (string * A) :=
  match d with
  | [] => [(k, v)]
  | (k', v') :: d' =>
      if String.eqb k' k then (k', v) :: d'
      else (k', v') :: dict_set k v d'
  end.

Definition log_error_and_exit (message : string) : M unit :=
  logger_error message [] ;;
  raise (SystemExit (ExitInt 1)).

Definition datetime_strptime (date : string) : M datetime :=
  match Date.strptime date with
  | Some d => ret d
  | None => raise ValueError
  end.

(** The loop of [convert_tags]; unpacking [tag.split("=")] into two names
    raises [ValueError] unless there are exactly two parts. *)
Fixpoint convert_tags_loop (tags_list : list string)
  (tags_dict : list (string * string)) : M (list (string * string)) :=
  match tags_list with
  | [] => ret tags_dict
  | tag :: rest =>
      match PyStr.split "=" tag with
      | [key; value] => convert_tags_loop rest (dict_set key value tags_dict)
      | _ => raise ValueError
      end
  end.

Definition convert_tags (tags : string) : M (list (string * string)) :=
  let tags_dict := [] in
  let tags_list := PyStr.split "," tags in
  convert_tags_loop tags_list tags_dict.

(** [x if x else default] for an optional string argument. *)
Definition or_default (x : option string) (default : string) : string :=
  match x with
  | Some s => if PyStr.truthy s then s else default
  | None => default
  end.

(** Line 65: [args.dry_run if args.dry_run else True]. *)
Definition dry_run_value (x : option string) : value :=
  if truthy (of_opt x) then of_opt x else VBool true.

Definition value_of_tags (d : list (string * string)) : value :=
  VDict (map (fun kv => (fst kv, VStr (snd kv))) d).

Section GenerateEncryptionKeys.

Variable env : Env.

Definition validate_date (date : string) : M unit :=
  try_except
    (datetime_strptime date ;;
     d <- datetime_strptime date ;;
     if Date.lt d (now env) then
       log_error_and_exit
         ("Invalid expiration date '" ++ date
          ++ "', should be in the future.")
     else ret tt)
    (fun e =>
       match e with
       | ValueError =>
           log_error_and_exit
             "Incorrect date format, should be 'YYYY-MM-DD'"
       | _ => raise e
       end).

Definition os_getlogin : M string :=
  match getlogin env with
  | Some user => ret user
  | None => raise OSError
  end.

(** The default of line 64: [{"user": os.getlogin()}]. *)
Definition login_tags : M (list (string * string)) :=
  user <- os_getlogin ;;
  ret [("user", user)].

(** Line 64: [convert_tags(args.tags) if args.tags else ...]. *)
Definition tags_of (x : option string) : M (list (string * string)) :=
  match x with
  | Some t => if PyStr.truthy t then convert_tags t else login_tags
  | None => login_tags
  end.

(** Lines 67-102 of [generate_encryption_keys], on the values the
    lines 57-65 have computed. *)
Definition run_with_settings
  (subscription_id resource_group location vault_name key_name
     key_version_name expiration : string)
  (tags : list (string * string)) (dry_run : value) : M unit :=
  logger_info "Running the script '%s' with following settings:"
    [VStr (script_file env)] ;;
  logger_info "  Subscription id: '%s'" [VStr subscription_id] ;;
  logger_info "  Resource group: '%s'" [VStr resource_group] ;;
  logger_info "  Location: '%s'" [VStr location] ;;
  logger_info "  Vault name: '%s'" [VStr vault_name] ;;
  logger_info "  Key name: '%s'" [VStr key_name] ;;
  logger_info "  Key version name: '%s'" [VStr key_version_name] ;;
  logger_info "  Expiration: '%s'" [VStr expiration] ;;
  logger_info "  Tags: '%s'" [value_of_tags tags] ;;
  logger_info "  Dry run: '%s'" [dry_run] ;;
  logger_info "Generating encryption key and encryption key version..." [] ;;
  let key := token_hex env DEFAULT_ENCRYPTION_KEY_LEN in
  if truthy dry_run then
    logger_info "Dry run mode, no changes will be made." [] ;;
    logger_info
      ("Encryption key '" ++ key_name
       ++ "' will be created with a value of '" ++ key ++ "'.") []
  else
    select_subscription env subscription_id ;;
    found <- group_exists env resource_group ;;
    (if negb found then
       log_error_and_exit
         ("Resource group '" ++ resource_group ++ "' does not exist")
     else ret tt) ;;
    found <- vault_exists env resource_group vault_name ;;
    (if negb found then
       log_error_and_exit
         ("Key vault '" ++ vault_name ++ "' does not exist")
     else ret tt) ;;
    key_id <- set_secret_and_get_secret_version env vault_name key_name
                key "application/octet-stream" expiration (Some tags) ;;
    set_secret_and_get_secret_version env vault_name key_version_name
      key_id "application/octet-stream" expiration (Some tags) ;;
    logger_info
      ("Encryption key '" ++ key_name
       ++ "' and Encryption key version name '" ++ key_version_name
       ++ "' generated successfully.") [].

Definition generate_encryption_keys (args : Namespace.t) : M unit :=
  let subscription_id := Namespace.subscription_id args in
  let resource_group := Namespace.resource_group args in
  let location := Namespace.location args in
  let vault_name := Namespace.vault_name args in
  let key_name :=
    or_default (Namespace.key_name args) DEFAULT_ENCRYPTION_KEY_NAME in
  let key_version_name :=
    or_default (Namespace.key_version_name args)
      DEFAULT_ENCRYPTION_KEY_VERSION_NAME in
  let expiration :=
    or_default (Namespace.expiration args)
      (DEFAULT_ENCRYPTION_KEY_EXPIRATION env) in
  validate_date expiration ;;
  tags <- tags_of (Namespace.tags args) ;;
  let dry_run := dry_run_value (Namespace.dry_run args) in
  run_with_settings subscription_id resource_group location vault_name
    key_name key_version_name expiration tags dry_run.


End GenerateEncryptionKeys.


(** The tag dictionary written back as text: the pairs as [set_secret]
    formats them, [key=value], joined by the commas [convert_tags] splits
    at. *)
Definition tags_to_string (d : list (string * string)) : string :=
  PyStr.join "," (map (fun kv => fst kv ++ "=" ++ snd kv) d).

(* ================================================================= *)
(** ** Definitions used by the statements *)

(** The decorator's loop as a recursion on the attempts that are left
    after the current one: a service-unavailable failure leads to a sleep
    of 5 seconds and another attempt, or to [RetryError] when none is
    left; any other outcome of the attempt is final.  [call_attempts]
    shows that [Tenacity.call] with the policies of line 86 computes it. *)
Fixpoint attempts (more : nat) (fn : M value) (st : state)
  : res value * state :=
  match fn st with
  | (Raise e, st') =>
      if is_service_unavailable e then
        match more with
        | O => (Raise (RetryError (Failed e)), st')
        | S k => attempts k fn (snd (sleep 5 st'))
        end
      else (Raise e, st')
  | r => r
  end.

(** The run of the CLI that an attempt of [az(args)] gets when it starts
    in [st]: [az] appends the two output arguments. *)
Definition run_at (env : Env) (args : list string) (st : state) : cli_run :=
  cli env (invocations (trace st)) (args ++ ["--output"; "json"])%list.

(** An outcome the decorator hands on without another attempt. *)
Definition not_retried (r : res value) : bool :=
  match r with
  | Ok _ => true
  | Raise e => negb (is_service_unavailable e)
  | Diverged => false
  end.

(** The key and the value of one [key=value] tag. *)
Definition tag_key (tag : string) : string :=
  hd EmptyString (PyStr.split "=" tag).

Definition tag_value (tag : string) : string :=
  last (PyStr.split "=" tag) EmptyString.

(** The records a dry run logs, when logging is enabled. *)
Definition dry_run_log (env : Env)
  (subscription_id resource_group location vault_name key_name
     key_version_name expiration : string)
  (tags : list (string * string)) (dry_run : value) : list event :=
  [Log INFO "Running the script '%s' with following settings:"
     [VStr (script_file env)];
   Log INFO "  Subscription id: '%s'" [VStr subscription_id];
   Log INFO "  Resource group: '%s'" [VStr resource_group];
   Log INFO "  Location: '%s'" [VStr location];
   Log INFO "  Vault name: '%s'" [VStr vault_name];
   Log INFO "  Key name: '%s'" [VStr key_name];
   Log INFO "  Key version name: '%s'" [VStr key_version_name];
   Log INFO "  Expiration: '%s'" [VStr expiration];
   Log INFO "  Tags: '%s'" [value_of_tags tags];
   Log INFO "  Dry run: '%s'" [dry_run];
   Log INFO "Generating encryption key and encryption key version..." [];
   Log INFO "Dry run mode, no changes will be made." [];
   Log INFO
     ("Encryption key '" ++ key_name
      ++ "' will be created with a value of '"
      ++ token_hex env DEFAULT_ENCRYPTION_KEY_LEN ++ "'.") []].

(** The state after a call of the logger. *)
Definition logged (lvl : Z) (fmt : string) (args : list value)
  (st : state) : state :=
  mkState
    (trace st ++ (if isEnabledFor lvl st then [Log lvl fmt args] else []))%list
    (disabled st).

(* ----------------------------------------------------------------- *)
(** *** Sample environments *)

Module Sample.

Definition dquote : ascii := ascii_of_nat 34.

(** A decoder for the sample runs: it reads [null], [[]] and an array
    of one string without escapes. *)
Definition loads (s : string) : option value :=
  if String.eqb s "null" then Some VNone
  else if String.eqb s "[]" then Some (VList [])
  else
    match s with
    | String "[" (String q rest) =>
        let n := String.length rest in
        if Ascii.eqb q dquote
           && String.eqb (String.substring (n - 2) 2 rest)
                (String dquote "]")
           && (PyStr.count dquote rest =? 1)%nat
        then Some (VList [VStr (String.substring 0 (n - 2) rest)])
        else None
    | _ => None
    end.

Definition noon : datetime := mkDatetime 2025 6 15 12 0 0 0.


(** An environment in which every run of the CLI is [run]. *)
Definition env_of (run : cli_run) (clock : datetime) : Env :=
  mkEnv (fun _ _ => run) loads clock (Some "alice")
    (fun _ => "00ff") "generate_encryptionkeys_azure.py" "2025-09-13".

Definition unavailable : cli_run :=
  mkRun (Exits (ExitInt 1)) ""
    (Some (mkResult (Some (connection_pool_message
                           ++ ": /subscriptions?api-version=2022-12-01")))).

Definition refused : cli_run :=
  mkRun (Exits (ExitInt 1)) "" (Some (mkResult (Some "1"))).

Definition missing : cli_run :=
  mkRun (Exits (ExitInt 3)) "" (Some (mkResult (Some "3"))).

Definition secret_id : string :=
  "https://kv.vault.azure.net/secrets/symmetricKey/0123abcd".

Definition wrote_secret : cli_run :=
  mkRun (Returns 0)
    (String "[" (String dquote (secret_id ++ String dquote "]"))) None.

Definition garbled : cli_run := mkRun (Returns 0) "{not json" None.

Definition silent : cli_run := mkRun (Returns 0) "" None.

Definition failed : cli_run :=
  mkRun (Returns 0) "" (Some (mkResult (Some "boom"))).

Definition start : state := mkState [] NOTSET.

Definition args (expiration dry_run : option string) : Namespace.t :=
  Namespace.mk "0000-1111" "rg" "westeurope" "kv" None None expiration
    (Some "a=1,b=2") dry_run.

End Sample.

(* ================================================================= *)
(** ** Further definitions used by the statements *)

(** The text [az] logs at line 109: the arguments joined by blanks, with
    every redacted value replaced in turn. *)
Definition az_log_text (args : list string)
  (redact_values : option (list string)) : string :=
  match redact_values with
  | Some l =>
      fold_left (fun a redact => PyStr.replace redact "*****" a) l
        (PyStr.join " " (args ++ ["--output"; "json"])%list)
  | None => PyStr.join " " (args ++ ["--output"; "json"])%list
  end.

(** The eleven records [generate_encryption_keys] logs before it looks at
    [dry_run] (lines 67-78). *)
Definition settings_log (env : Env)
  (subscription_id resource_group location vault_name key_name
     key_version_name expiration : string)
  (tags : list (string * string)) (dry_run : value) : list event :=
  [Log INFO "Running the script '%s' with following settings:"
     [VStr (script_file env)];
   Log INFO "  Subscription id: '%s'" [VStr subscription_id];
   Log INFO "  Resource group: '%s'" [VStr resource_group];
   Log INFO "  Location: '%s'" [VStr location];
   Log INFO "  Vault name: '%s'" [VStr vault_name];
   Log INFO "  Key name: '%s'" [VStr key_name];
   Log INFO "  Key version name: '%s'" [VStr key_version_name];
   Log INFO "  Expiration: '%s'" [VStr expiration];
   Log INFO "  Tags: '%s'" [value_of_tags tags];
   Log INFO "  Dry run: '%s'" [dry_run];
   Log INFO "Generating encryption key and encryption key version..." []].

(** The state in which the workflow reaches line 82. *)
Definition settings_logged (env : Env)
  (subscription_id resource_group location vault_name key_name
     key_version_name expiration : string)
  (tags : list (string * string)) (dry_run : value) (st : state) : state :=
  mkState
    (trace st
     ++ (if isEnabledFor INFO st
         then settings_log env subscription_id resource_group location
                vault_name key_name key_version_name expiration tags dry_run
         else []))%list
    (disabled st).

(** The [--tags] arguments of a dictionary. *)
Definition tag_arguments (d : list (string * string)) : list string :=
  flat_map (fun kv => ["--tags"; fst kv ++ "=" ++ snd kv]) d.

(** The argument lists of the three queries of the workflow. *)
Definition account_list_args : list string :=
  ["account"; "list"; "--query"; "[?isDefault]"].


Definition group_show_args (resource_group : string) : list string :=
  ["group"; "show"; "--name"; resource_group].

Definition vault_show_args (resource_group vault_name : string)
  : list string :=
  ["keyvault"; "show"; "--name"; vault_name;
   "--resource-group"; resource_group].

(** A run of the CLI is classified as service-unavailable by lines
    122-123. *)
Definition is_unavailable_run (run : cli_run) : bool :=
  match invoked run with
  | Exits code =>
      code_is code 1
      && match result run with
         | Some res =>
             PyStr.contains connection_pool_message (str_error (error res))
         | None => false
         end
  | Returns _ => false
  end.

Module Sample2.

(** A CLI that is unavailable for the first [k] invocations and then
    runs as [run]. *)
Definition flaky (k : nat) (run : cli_run) : Env :=
  mkEnv
    (fun history _ =>
       if (length history <? k)%nat then Sample.unavailable else run)
    Sample.loads Sample.noon (Some "alice") (fun _ => "00ff")
    "generate_encryptionkeys_azure.py" "2025-09-13".

(** An environment whose CLI answers every query with [run] and whose
    decoder reads every output as [v]. *)
Definition answering (run : cli_run) (v : value) (login : option string)
  : Env :=
  mkEnv (fun _ _ => run) (fun _ => Some v) Sample.noon login
    (fun _ => "00ff") "generate_encryptionkeys_azure.py" "2025-09-13".

Definition some_output : cli_run := mkRun (Returns 0) "[...]" None.

Definition account (id : string) : value :=
  VList [VDict [("id", VStr id); ("isDefault", VBool true)]].

Definition found : cli_run := mkRun (Returns 0) "found" None.

(** A cloud in which the account [0000-1111] is the default one, the
    group and the vault are answered as given, and a secret that is set
    gets the identifier [Sample.secret_id]. *)
Definition cloud (group vault : cli_run) : Env :=
  mkEnv
    (fun _ args =>
       match args with
       | "account" :: _ => mkRun (Returns 0) "accounts" None
       | "group" :: _ => group
       | "keyvault" :: "show" :: _ => vault
       | _ => mkRun (Returns 0) "secret" None
       end)
    (fun s =>
       if String.eqb s "accounts" then Some (account "0000-1111")
       else if String.eqb s "secret" then Some (VList [VStr Sample.secret_id])
       else if String.eqb s "found" then Some (VDict [("name", VStr "rg")])
       else None)
    Sample.noon (Some "alice") (fun _ => "00ff")
    "generate_encryptionkeys_azure.py" "2025-09-13".

End Sample2.

(* ================================================================= *)
(** * Properties *)

Example split_tags : PyStr.split "," "a=1,b=2" = ["a=1"; "b=2"].
Proof. reflexivity. Qed.

Example split_empty : PyStr.split "," "" = [""].
Proof. reflexivity. Qed.

Example replace_secret :
  PyStr.replace "s3cr3t" "*****" "--value s3cr3t --name s3cr3t" =
  "--value ***** --name *****".
Proof. reflexivity. Qed.

Example replace_empty : PyStr.replace "" "*" "abc" = "*a*b*c*".
Proof. reflexivity. Qed.

Example str_of_exit_codes :
  (PyStr.of_Z 0, PyStr.of_Z 3, PyStr.of_Z (-1)) = ("0", "3", "-1").
Proof. reflexivity. Qed.

Example contains_inside :
  PyStr.contains "Max retries" "pool: Max retries exceeded" = true
  /\ PyStr.contains "Max retries" "pool: max retries exceeded" = false.
Proof. split; reflexivity. Qed.

Example lower_guid : PyStr.lower "AbC-09f" = "abc-09f".
Proof. reflexivity. Qed.

Example strptime_samples :
  Date.strptime "2025-06-15" = Some (mkDatetime 2025 6 15 0 0 0 0)
  /\ Date.strptime "2025-6-5" = Some (mkDatetime 2025 6 5 0 0 0 0)
  /\ Date.strptime "2024-02-29" = Some (mkDatetime 2024 2 29 0 0 0 0)
  /\ Date.strptime "2025-02-29" = None
  /\ Date.strptime "2025-13-01" = None
  /\ Date.strptime "0000-01-01" = None
  /\ Date.strptime "15/06/2025" = None.
Proof. repeat split; reflexivity. Qed.

Example sample_loads_secret :
  Sample.loads (out_file Sample.wrote_secret)
  = Some (VList [VStr Sample.secret_id]).
Proof. reflexivity. Qed.

(* ================================================================= *)
(** ** The trace *)

Lemma invocations_app (t1 t2 : list event) :
  invocations (t1 ++ t2) = (invocations t1 ++ invocations t2)%list.
Proof.
  induction t1 as [|e t1 IH]; simpl; [reflexivity|].
  destruct e; simpl; rewrite IH; reflexivity.
Qed.

Lemma sleeps_app (t1 t2 : list event) :
  sleeps (t1 ++ t2) = (sleeps t1 ++ sleeps t2)%list.
Proof.
  induction t1 as [|e t1 IH]; simpl; [reflexivity|].
  destruct e; simpl; rewrite IH; reflexivity.
Qed.

Lemma logger_log_eq lvl fmt l st :
  logger_log lvl fmt l st = (Ok tt, logged lvl fmt l st).
Proof.
  unfold logger_log, logged, emit.
  destruct (isEnabledFor lvl st); [reflexivity|].
  rewrite app_nil_r. destruct st; reflexivity.
Qed.

Lemma bind_logger_info (A : Type) fmt l (k : M A) st :
  (logger_info fmt l ;; k) st = k (logged INFO fmt l st).
Proof.
  unfold bind, logger_info. rewrite logger_log_eq. reflexivity.
Qed.

(** The state after a sequence of INFO records. *)
Lemma logged_one fmt l st :
  logged INFO fmt l st
  = mkState
      (trace st ++ (if isEnabledFor INFO st then [Log INFO fmt l] else []))
      (disabled st).
Proof. reflexivity. Qed.

Lemma logged_more fmt l records st :
  logged INFO fmt l
    (mkState (trace st ++ (if isEnabledFor INFO st then records else []))
       (disabled st))
  = mkState
      (trace st
       ++ (if isEnabledFor INFO st
           then (records ++ [Log INFO fmt l])%list else []))
      (disabled st).
Proof.
  unfold logged, isEnabledFor. cbn [trace disabled].
  destruct ((disabled st <? INFO) && (INFO <=? INFO)).
  - rewrite <- app_assoc. reflexivity.
  - rewrite !app_nil_r. reflexivity.
Qed.

Lemma logged_invocations lvl fmt l st :
  invocations (trace (logged lvl fmt l st)) = invocations (trace st).
Proof.
  unfold logged. simpl. rewrite invocations_app.
  destruct (isEnabledFor lvl st); simpl; apply app_nil_r.
Qed.

Lemma logged_sleeps lvl fmt l st :
  sleeps (trace (logged lvl fmt l st)) = sleeps (trace st).
Proof.
  unfold logged. simpl. rewrite sleeps_app.
  destruct (isEnabledFor lvl st); simpl; apply app_nil_r.
Qed.

Lemma logged_disabled lvl fmt l st :
  disabled (logged lvl fmt l st) = disabled st.
Proof. reflexivity. Qed.

(* ================================================================= *)
(** ** One attempt: the body of [az] *)

Section AzBody.

Variable env : Env.
Variable args : list string.
Variable redact_values : option (list string).

Local Arguments String.append : simpl never.
Local Opaque logged.

Ltac az_unfold :=
  unfold az_wrapped, bind, try_finally, logger_info, logger_error,
    logging_disable, az_cli_invoke, raise, ret.

Ltac az_run H :=
  az_unfold; rewrite logger_log_eq; simpl;
  rewrite logged_invocations, ?H; simpl.

Lemma az_wrapped_exit_3 st :
  invoked (run_at env args st) = Exits (ExitInt 3) ->
  fst (az_wrapped env args redact_values st)
  = Raise (AzCliResourceNotFoundException "Exit Code:0").
Proof.
  unfold run_at. intros H. az_run H. reflexivity.
Qed.



Lemma az_wrapped_decoded st :
  invoked (run_at env args st) = Returns 0 ->
  out_file (run_at env args st) <> "" ->
  fst (az_wrapped env args redact_values st)
  = match json_loads env (out_file (run_at env args st)) with
    | Some v => Ok v
    | None => Raise (AzCliExecutionException "Exit Code:0")
    end.
Proof.
  unfold run_at. intros H Hout. az_run H.
  destruct (out_file _) eqn:Eo; [congruence|]. simpl.
  destruct (json_loads env _); simpl; rewrite ?logger_log_eq; reflexivity.
Qed.

Lemma az_wrapped_empty st :
  invoked (run_at env args st) = Returns 0 ->
  out_file (run_at env args st) = "" ->
  fst (az_wrapped env args redact_values st)
  = match result (run_at env args st) with
    | Some (mkResult (Some err)) =>
        Raise (AzCliExecutionException ("Exit Code:0, Result:" ++ err))
    | _ => Ok VNone
    end.
Proof.
  unfold run_at. intros H Hout. az_run H.
  rewrite Hout. simpl.
  destruct (result _) as [[[err|]]|]; simpl; rewrite ?logger_log_eq;
    reflexivity.
Qed.

(** Whatever the CLI does, an attempt invokes it once, does not sleep,
    leaves logging enabled, and ends with a value or with one of the
    typed failures. *)
Lemma az_wrapped_effect st :
  invocations (trace (snd (az_wrapped env args redact_values st)))
  = (invocations (trace st) ++ [(args ++ ["--output"; "json"])%list])%list
  /\ sleeps (trace (snd (az_wrapped env args redact_values st)))
     = sleeps (trace st)
  /\ disabled (snd (az_wrapped env args redact_values st)) = NOTSET
  /\ match fst (az_wrapped env args redact_values st) with
     | Ok _ => True
     | Raise e => is_typed_failure e = true
     | Diverged => False
     end.
Proof.
  az_unfold. rewrite logger_log_eq. simpl.
  rewrite logged_invocations.
  destruct (cli env _ _) as [inv out res]. simpl.
  destruct inv as [code|code]; simpl.
  all: repeat match goal with
         | |- context [if ?b then _ else _] => destruct b; simpl
         | |- context [match json_loads env ?o with _ => _ end] =>
             destruct (json_loads env o); simpl
         | |- context [match ?r with Some _ => _ | None => _ end] =>
             destruct r as [[[?|]]|]; simpl
         end.
  all: repeat first
         [ rewrite logger_log_eq | rewrite logged_invocations
         | rewrite logged_sleeps | rewrite invocations_app
         | rewrite sleeps_app | rewrite app_nil_r | progress simpl ].
  all: repeat split; auto.
Qed.

End AzBody.

(* ================================================================= *)
(** ** The retry decorator *)

Section Retry.

Variable fn : M value.

Lemma call_S (fuel : nat) (r : Tenacity.Retrying)
  (rs : Tenacity.RetryCallState) (st : state) :
  Tenacity.call (S fuel) r fn rs st
  = match Tenacity.iter r rs with
    | Tenacity.DoAttempt =>
        match fn st with
        | (Ok v, st') =>
            Tenacity.call fuel r fn (Tenacity.set_outcome rs (Result v)) st'
        | (Raise e, st') =>
            Tenacity.call fuel r fn (Tenacity.set_outcome rs (Failed e)) st'
        | (Diverged, st') => (Diverged, st')
        end
    | Tenacity.DoSleep secs =>
        (sleep secs ;;
         Tenacity.call fuel r fn (Tenacity.prepare_for_next_attempt rs)) st
    | Tenacity.Return v => (Ok v, st)
    | Tenacity.Throw e => (Raise e, st)
    end.
Proof.
  simpl. destruct (Tenacity.iter r rs); reflexivity.
Qed.

Lemma iter_result (n : nat) (v : value) :
  Tenacity.iter az_retrying (Tenacity.mkRetryCallState n (Some (Result v)))
  = Tenacity.Return v.
Proof. reflexivity. Qed.

Lemma iter_failed (n : nat) (e : exn) :
  Tenacity.iter az_retrying (Tenacity.mkRetryCallState n (Some (Failed e)))
  = if is_service_unavailable e then
      if (5 <=? n)%nat then Tenacity.Throw (RetryError (Failed e))
      else Tenacity.DoSleep 5
    else Tenacity.Throw e.
Proof.
  unfold Tenacity.iter, az_retrying, Tenacity.retry_if_exception_type,
    Tenacity.stop_after_attempt, Tenacity.wait_fixed. simpl.
  destruct (is_service_unavailable e); reflexivity.
Qed.

(** With the policies of line 86, the loop of tenacity is [attempts]:
    started at attempt [n] with [more] attempts left after it, it needs
    two iterations per attempt. *)
Lemma call_attempts (more : nat) :
  forall (fuel n : nat) (st : state),
    (n + more = 5)%nat ->
    (2 * more + 2 <= fuel)%nat ->
    Tenacity.call fuel az_retrying fn
      (Tenacity.mkRetryCallState n None) st
    = attempts more fn st.
Proof.
  induction more as [|more IH]; intros fuel n st Hn Hfuel;
    (destruct fuel as [|[|fuel]]; [lia|lia|]);
    rewrite call_S; change (Tenacity.iter az_retrying _) with Tenacity.DoAttempt;
    cbn iota; unfold Tenacity.set_outcome; cbn [Tenacity.attempt_number];
    cbn [attempts];
    destruct (fn st) as [[v|e|] st'];
    try (rewrite call_S, iter_result); try reflexivity.
  - rewrite call_S, iter_failed.
    destruct (is_service_unavailable e); [|reflexivity].
    replace (5 <=? n)%nat with true by (symmetry; apply Nat.leb_le; lia).
    reflexivity.
  - rewrite call_S, iter_failed.
    destruct (is_service_unavailable e); [|reflexivity].
    replace (5 <=? n)%nat with false by (symmetry; apply Nat.leb_gt; lia).
    unfold bind, sleep, emit, Tenacity.prepare_for_next_attempt.
    cbn [Tenacity.attempt_number snd].
    apply IH; lia.
Qed.

(** An outcome that is not a service-unavailable failure ends the loop
    at once. *)
Lemma attempts_final (more : nat) (st : state) :
  not_retried (fst (fn st)) = true ->
  attempts more fn st = fn st.
Proof.
  destruct more; simpl; destruct (fn st) as [[v|e|] st']; simpl;
    try reflexivity; try discriminate;
    destruct (is_service_unavailable e); simpl; try reflexivity;
    discriminate.
Qed.

Variable argv : list string.

(** What one call of [fn] is assumed to do: one invocation, no sleep, a
    value or a typed failure. *)
Hypothesis fn_effect : forall st,
  invocations (trace (snd (fn st))) = (invocations (trace st) ++ [argv])%list
  /\ sleeps (trace (snd (fn st))) = sleeps (trace st)
  /\ match fst (fn st) with
     | Ok _ => True
     | Raise e => is_typed_failure e = true
     | Diverged => False
     end.

Lemma attempts_count (more : nat) :
  forall st, exists n : nat,
    (1 <= n <= S more)%nat
    /\ invocations (trace (snd (attempts more fn st)))
       = (invocations (trace st) ++ repeat argv n)%list
    /\ sleeps (trace (snd (attempts more fn st)))
       = (sleeps (trace st) ++ repeat 5 (n - 1))%list
    /\ match fst (attempts more fn st) with
       | Ok _ => True
       | Raise (RetryError fut) =>
           n = S more
           /\ exists msg, fut = Failed (AzCliServiceUnavailableException msg)
       | Raise e =>
           is_service_unavailable e = false /\ is_typed_failure e = true
       | Diverged => False
       end.
Proof.
  induction more as [|more IH]; intros st;
    destruct (fn_effect st) as (Hi & Hs & Hr); simpl;
    destruct (fn st) as [[v|e|] st'] eqn:Efn; simpl in *;
    try contradiction.
  - exists 1%nat. simpl. rewrite app_nil_r. repeat split; auto.
  - destruct e; simpl in *; try discriminate.
    + exists 1%nat. simpl. rewrite app_nil_r. repeat split; eauto.
    + exists 1%nat. simpl. rewrite app_nil_r. repeat split; eauto.
    + exists 1%nat. simpl. rewrite app_nil_r. repeat split; eauto.
    + exists 1%nat. simpl. rewrite app_nil_r. repeat split; eauto.
  - exists 1%nat. simpl. rewrite app_nil_r. repeat split; auto; lia.
  - destruct e; simpl in *; try discriminate.
    + destruct (IH (mkState (trace st' ++ [Sleep 5]) (disabled st')))
        as (n & Hn & Hi' & Hs' & Hr').
      exists (S n). simpl in Hi', Hs'.
      rewrite invocations_app in Hi'. rewrite sleeps_app in Hs'.
      simpl in Hi', Hs'. rewrite app_nil_r in Hi'.
      rewrite Hi', Hs', Hi, Hs. rewrite <- !app_assoc. simpl.
      replace (S n - 1)%nat with (S (n - 1))%nat by lia.
      replace (n - 0)%nat with n by lia.
      destruct n as [|n]; [lia|]. simpl. rewrite Nat.sub_0_r.
      repeat split; try lia.
      destruct (fst (attempts more fn _)) as [v|e|]; auto.
      destruct e; auto. destruct Hr' as [Hn' Hmsg]. split; [lia|exact Hmsg].
    + exists 1%nat. simpl. rewrite app_nil_r. repeat split; auto; lia.
    + exists 1%nat. simpl. rewrite app_nil_r. repeat split; auto; lia.
    + exists 1%nat. simpl. rewrite app_nil_r. repeat split; auto; lia.
Qed.

End Retry.

Lemma az_attempts (env : Env) (args : list string)
  (redact_values : option (list string)) (st : state) :
  az env args redact_values st
  = attempts 4 (az_wrapped env args redact_values) st.
Proof.
  unfold az, az_fuel, Tenacity.initial. apply call_attempts; lia.
Qed.

(** When the first attempt does not end with a service-unavailable
    failure, [az] is that attempt. *)
Lemma az_first_attempt (env : Env) (args : list string)
  (redact_values : option (list string)) (st : state) :
  not_retried (fst (az_wrapped env args redact_values st)) = true ->
  az env args redact_values st = az_wrapped env args redact_values st.
Proof.
  intros H. rewrite az_attempts. apply attempts_final. exact H.
Qed.




(* ================================================================= *)
(** ** The classification of the outcomes of the CLI *)





(** C5.  When [invoke] returns exit code 0 and the captured output is not
    empty, [az] returns the value [json.loads] decodes from the output,
    and raises [AzCliExecutionException] when the output is not JSON;
    there is no retry. *)
Theorem az_output_is_decoded (env : Env) (args : list string)
  (redact_values : option (list string)) (st : state) :
  invoked (run_at env args st) = Returns 0 ->
  out_file (run_at env args st) <> "" ->
  fst (az env args redact_values st)
  = match json_loads env (out_file (run_at env args st)) with
    | Some v => Ok v
    | None => Raise (AzCliExecutionException "Exit Code:0")
    end
  /\ az env args redact_values st = az_wrapped env args redact_values st.
Proof.
  intros H Hout.
  pose proof (az_wrapped_decoded env args redact_values st H Hout) as Hw.
  assert (Haz : az env args redact_values st
                = az_wrapped env args redact_values st).
  { apply az_first_attempt. rewrite Hw.
    destruct (json_loads env _); reflexivity. }
  rewrite Haz. split; [exact Hw|reflexivity].
Qed.

Lemma az_output_is_decoded_witness :
  fst (az (Sample.env_of Sample.wrote_secret Sample.noon)
         ["keyvault"; "secret"; "set"] None Sample.start)
  = Ok (VList [VStr Sample.secret_id])
  /\ fst (az (Sample.env_of Sample.garbled Sample.noon)
            ["keyvault"; "secret"; "set"] None Sample.start)
     = Raise (AzCliExecutionException "Exit Code:0").
Proof.
  split.
  - apply (proj1 (az_output_is_decoded
                    (Sample.env_of Sample.wrote_secret Sample.noon)
                    ["keyvault"; "secret"; "set"] None Sample.start eq_refl
                    ltac:(discriminate))).
  - apply (proj1 (az_output_is_decoded
                    (Sample.env_of Sample.garbled Sample.noon)
                    ["keyvault"; "secret"; "set"] None Sample.start eq_refl
                    ltac:(discriminate))).
Defined.

(** C6.  When [invoke] returns exit code 0 and nothing was written to the
    output: if [az_cli.result] is unset or has no error, [az] returns
    [None] and raises nothing; if it has an error, [az] raises
    [AzCliExecutionException]; there is no retry. *)
Theorem az_empty_output (env : Env) (args : list string)
  (redact_values : option (list string)) (st : state) :
  invoked (run_at env args st) = Returns 0 ->
  out_file (run_at env args st) = "" ->
  fst (az env args redact_values st)
  = match result (run_at env args st) with
    | Some (mkResult (Some err)) =>
        Raise (AzCliExecutionException ("Exit Code:0, Result:" ++ err))
    | _ => Ok VNone
    end
  /\ az env args redact_values st = az_wrapped env args redact_values st.
Proof.
  intros H Hout.
  pose proof (az_wrapped_empty env args redact_values st H Hout) as Hw.
  assert (Haz : az env args redact_values st
                = az_wrapped env args redact_values st).
  { apply az_first_attempt. rewrite Hw.
    destruct (result _) as [[[err|]]|]; reflexivity. }
  rewrite Haz. split; [exact Hw|reflexivity].
Qed.

Lemma az_empty_output_witness :
  fst (az (Sample.env_of Sample.silent Sample.noon)
         ["account"; "set"; "--subscription"; "0000-1111"] None Sample.start)
  = Ok VNone
  /\ fst (az (Sample.env_of Sample.failed Sample.noon)
            ["account"; "set"; "--subscription"; "0000-1111"] None
            Sample.start)
     = Raise (AzCliExecutionException "Exit Code:0, Result:boom").
Proof.
  split.
  - apply (proj1 (az_empty_output
                    (Sample.env_of Sample.silent Sample.noon)
                    ["account"; "set"; "--subscription"; "0000-1111"] None
                    Sample.start eq_refl eq_refl)).
  - apply (proj1 (az_empty_output
                    (Sample.env_of Sample.failed Sample.noon)
                    ["account"; "set"; "--subscription"; "0000-1111"] None
                    Sample.start eq_refl eq_refl)).
Defined.

(** The handler of lines 117-126 sees a [SystemExit] only, and the lines
    132-146 read the code [invoke] returns: a returned code 3 with an
    error in [az_cli.result] is a generic failure, and so is a
    [SystemExit] with code 0. *)
Example az_returned_code_3 :
  fst (az (Sample.env_of
             (mkRun (Returns 3) "" (Some (mkResult (Some "not found"))))
             Sample.noon)
         ["keyvault"; "secret"; "set"] None Sample.start)
  = Raise (AzCliExecutionException "Exit Code:3, Result:not found").
Proof. reflexivity. Qed.

Example az_system_exit_0 :
  fst (az (Sample.env_of (mkRun (Exits (ExitInt 0)) "[]" None) Sample.noon)
         ["group"; "show"; "--name"; "rg"] None Sample.start)
  = Raise (AzCliExecutionException "Exit Code:0").
Proof. reflexivity. Qed.

(* ================================================================= *)
(** ** The version of a secret *)

(** C10.  [set_secret_and_get_secret_version] returns the text after the
    last slash of the first identifier when [set_secret] returned a list
    that starts with a string, and a list result leads to a value only in
    that case; on the empty list the subscript raises [IndexError], and on
    [None] it raises [TypeError], which is none of the four typed
    failures.  [None] is what [az] returns when [invoke] returns 0 with
    no output and no error, so that run of the CLI ends in [TypeError]. *)
Theorem secret_version_requires_identifier (env : Env)
  (key_vault secret_name secret_value content_type expiration_date : string)
  (tags : option (list (string * string))) (st : state) :
  (forall id rest st',
      set_secret env key_vault secret_name secret_value content_type
        expiration_date tags st = (Ok (VList (VStr id :: rest)), st') ->
      set_secret_and_get_secret_version env key_vault secret_name
        secret_value content_type expiration_date tags st
      = (Ok (last (PyStr.split "/" id) ""), st'))
  /\ (forall l st' version,
         set_secret env key_vault secret_name secret_value content_type
           expiration_date tags st = (Ok (VList l), st') ->
         fst (set_secret_and_get_secret_version env key_vault secret_name
                secret_value content_type expiration_date tags st)
         = Ok version ->
         exists id rest, l = VStr id :: rest)
  /\ (forall st',
         set_secret env key_vault secret_name secret_value content_type
           expiration_date tags st = (Ok (VList []), st') ->
         set_secret_and_get_secret_version env key_vault secret_name
           secret_value content_type expiration_date tags st
         = (Raise IndexError, st'))
  /\ (forall st',
         set_secret env key_vault secret_name secret_value content_type
           expiration_date tags st = (Ok VNone, st') ->
         set_secret_and_get_secret_version env key_vault secret_name
           secret_value content_type expiration_date tags st
         = (Raise TypeError, st'))
  /\ is_typed_failure TypeError = false
  /\ (invoked (run_at env
                 (set_secret_args key_vault secret_name secret_value
                    content_type expiration_date tags) st) = Returns 0 ->
      out_file (run_at env
                 (set_secret_args key_vault secret_name secret_value
                    content_type expiration_date tags) st) = "" ->
      match result (run_at env
                 (set_secret_args key_vault secret_name secret_value
                    content_type expiration_date tags) st) with
      | Some (mkResult (Some _)) => False
      | _ => True
      end ->
      fst (set_secret_and_get_secret_version env key_vault secret_name
             secret_value content_type expiration_date tags st)
      = Raise TypeError).
Proof.
  unfold set_secret_and_get_secret_version, bind.
  repeat split.
  - intros id rest st' H. rewrite H. reflexivity.
  - intros l st' version H Hv. rewrite H in Hv.
    destruct l as [|x rest]; [discriminate Hv|].
    destruct x; try discriminate Hv. eauto.
  - intros st' H. rewrite H. reflexivity.
  - intros st' H. rewrite H. reflexivity.
  - intros Hinv Hout Hres. unfold set_secret.
    pose proof (az_wrapped_empty env _ None st Hinv Hout) as Hw.
    rewrite az_first_attempt
      by (rewrite Hw; destruct (result _) as [[[err|]]|]; reflexivity).
    destruct (az_wrapped env _ None st) as [r st'].
    simpl in Hw. subst r.
    destruct (result _) as [[[err|]]|]; [contradiction|reflexivity|reflexivity].
Qed.

Lemma secret_version_requires_identifier_witness :
  set_secret_and_get_secret_version
    (Sample.env_of Sample.wrote_secret Sample.noon)
    "kv" "symmetricKey" "00ff" "application/octet-stream" "2025-09-13"
    (Some [("user", "alice")]) Sample.start
  = (Ok "0123abcd",
     snd (set_secret (Sample.env_of Sample.wrote_secret Sample.noon)
            "kv" "symmetricKey" "00ff" "application/octet-stream"
            "2025-09-13" (Some [("user", "alice")]) Sample.start))
  /\ fst (set_secret_and_get_secret_version
            (Sample.env_of Sample.silent Sample.noon)
            "kv" "symmetricKey" "00ff" "application/octet-stream"
            "2025-09-13" (Some [("user", "alice")]) Sample.start)
     = Raise TypeError.
Proof.
  split.
  - apply (proj1 (secret_version_requires_identifier
                    (Sample.env_of Sample.wrote_secret Sample.noon)
                    "kv" "symmetricKey" "00ff" "application/octet-stream"
                    "2025-09-13" (Some [("user", "alice")]) Sample.start)
             Sample.secret_id []).
    reflexivity.
  - apply (proj2 (proj2 (proj2 (proj2 (proj2
             (secret_version_requires_identifier
                (Sample.env_of Sample.silent Sample.noon)
                "kv" "symmetricKey" "00ff" "application/octet-stream"
                "2025-09-13" (Some [("user", "alice")]) Sample.start))))));
      reflexivity || exact I.
Defined.

(* ================================================================= *)
(** ** The expiration date *)

Section ValidateDate.

Variable env : Env.

Local Arguments String.append : simpl never.

Lemma validate_date_eq (date : string) (st : state) :
  validate_date env date st
  = match Date.strptime date with
    | None =>
        (Raise (SystemExit (ExitInt 1)),
         logged ERROR "Incorrect date format, should be 'YYYY-MM-DD'" [] st)
    | Some d =>
        if Date.lt d (now env) then
          (Raise (SystemExit (ExitInt 1)),
           logged ERROR
             ("Invalid expiration date '" ++ date
              ++ "', should be in the future.") [] st)
        else (Ok tt, st)
    end.
Proof.
  unfold validate_date, try_except, bind, datetime_strptime,
    log_error_and_exit, bind, logger_error, raise, ret.
  destruct (Date.strptime date) as [d|]; simpl.
  - destruct (Date.lt d (now env)); simpl; rewrite ?logger_log_eq;
      reflexivity.
  - rewrite logger_log_eq. reflexivity.
Qed.

Lemma validate_date_invocations (date : string) (st : state) :
  invocations (trace (snd (validate_date env date st)))
  = invocations (trace st).
Proof.
  rewrite validate_date_eq.
  destruct (Date.strptime date) as [d|];
    [destruct (Date.lt d (now env))|]; cbn [fst snd];
    rewrite ?logged_invocations; reflexivity.
Qed.

Lemma validate_date_ok (date : string) (st : state) :
  fst (validate_date env date st) = Ok tt ->
  validate_date env date st = (Ok tt, st).
Proof.
  rewrite validate_date_eq.
  destruct (Date.strptime date) as [d|];
    [destruct (Date.lt d (now env))|]; simpl; intros H;
    try discriminate H; reflexivity.
Qed.

End ValidateDate.

(* ================================================================= *)
(** ** The workflow *)

Lemma dry_run_value_truthy (x : option string) :
  truthy (dry_run_value x) = true.
Proof.
  destruct x as [[|a s]|]; reflexivity.
Qed.

Lemma convert_tags_loop_state (l : list string) :
  forall (d : list (string * string)) (st : state),
    snd (convert_tags_loop l d st) = st.
Proof.
  induction l as [|tag l IH]; intros d st; simpl; [reflexivity|].
  destruct (PyStr.split "=" tag) as [|k [|v [|w ws]]]; try reflexivity.
  apply IH.
Qed.

Section Workflow.

Variable env : Env.

Local Arguments String.append : simpl never.

Lemma tags_of_state (x : option string) (st : state) :
  snd (tags_of env x st) = st.
Proof.
  unfold tags_of, login_tags, os_getlogin, convert_tags, bind, ret, raise.
  destruct x as [t|]; [destruct (PyStr.truthy t)|];
    try apply convert_tags_loop_state;
    destruct (getlogin env); reflexivity.
Qed.

Lemma dry_run_log_invocations s r l v k kv e t d :
  invocations (dry_run_log env s r l v k kv e t d) = []
  /\ sleeps (dry_run_log env s r l v k kv e t d) = []
  /\ forallb is_log (dry_run_log env s r l v k kv e t d) = true.
Proof. repeat split. Qed.

(** With a truthy [dry_run] the workflow logs and returns. *)
Lemma run_with_settings_dry
  (subscription_id resource_group location vault_name key_name
     key_version_name expiration : string)
  (tags : list (string * string)) (dry_run : value) (st : state) :
  truthy dry_run = true ->
  run_with_settings env subscription_id resource_group location vault_name
    key_name key_version_name expiration tags dry_run st
  = (Ok tt,
     mkState
       (trace st
        ++ (if isEnabledFor INFO st
            then dry_run_log env subscription_id resource_group location
                   vault_name key_name key_version_name expiration tags
                   dry_run
            else []))%list
       (disabled st)).
Proof.
  intros H. unfold run_with_settings. rewrite H. cbv beta iota zeta.
  rewrite !bind_logger_info. unfold logger_info. rewrite logger_log_eq.
  rewrite (logged_one _ _ st), !logged_more. reflexivity.
Qed.

(** When the date is accepted and the tags are read, the function
    returns at the dry-run branch. *)
Lemma generate_encryption_keys_dry (args : Namespace.t)
  (tags : list (string * string)) (st : state) :
  fst (validate_date env
         (or_default (Namespace.expiration args)
            (DEFAULT_ENCRYPTION_KEY_EXPIRATION env)) st) = Ok tt ->
  fst (tags_of env (Namespace.tags args) st) = Ok tags ->
  generate_encryption_keys env args st
  = (Ok tt,
     mkState
       (trace st
        ++ (if isEnabledFor INFO st
            then dry_run_log env (Namespace.subscription_id args)
                   (Namespace.resource_group args)
                   (Namespace.location args) (Namespace.vault_name args)
                   (or_default (Namespace.key_name args)
                      DEFAULT_ENCRYPTION_KEY_NAME)
                   (or_default (Namespace.key_version_name args)
                      DEFAULT_ENCRYPTION_KEY_VERSION_NAME)
                   (or_default (Namespace.expiration args)
                      (DEFAULT_ENCRYPTION_KEY_EXPIRATION env))
                   tags (dry_run_value (Namespace.dry_run args))
            else []))%list
       (disabled st)).
Proof.
  intros Hdate Htags. unfold generate_encryption_keys, bind.
  rewrite (validate_date_ok _ _ _ Hdate).
  pose proof (tags_of_state (Namespace.tags args) st) as Hst.
  destruct (tags_of env (Namespace.tags args) st) as [r st1].
  simpl in Htags, Hst. subst r st1.
  apply run_with_settings_dry. apply dry_run_value_truthy.
Qed.

(** Whatever the arguments, the function does not invoke the CLI. *)
Lemma generate_encryption_keys_invocations (args : Namespace.t)
  (st : state) :
  invocations (trace (snd (generate_encryption_keys env args st)))
  = invocations (trace st)
  /\ sleeps (trace (snd (generate_encryption_keys env args st)))
     = sleeps (trace st).
Proof.
  unfold generate_encryption_keys, bind.
  rewrite validate_date_eq.
  destruct (Date.strptime _) as [d|];
    [destruct (Date.lt d (now env))|]; cbn [fst snd];
    rewrite ?logged_invocations, ?logged_sleeps; try (split; reflexivity).
  pose proof (tags_of_state (Namespace.tags args) st) as Hst.
  destruct (tags_of env (Namespace.tags args) st) as [[tags|e|] st1];
    simpl in Hst; subst st1; try (split; reflexivity).
  rewrite run_with_settings_dry by apply dry_run_value_truthy.
  cbn [fst snd trace]. rewrite invocations_app, sleeps_app.
  destruct (isEnabledFor INFO st); simpl; rewrite !app_nil_r;
    split; reflexivity.
Qed.


End Workflow.




(** C3 (amended).  Whatever [args.dry_run] is, the value computed at line
    65 is truthy: [True] for an absent or empty argument, the argument
    itself otherwise.  So no call of [generate_encryption_keys] invokes
    the CLI, and whenever the date is accepted and the tags are read the
    function returns at the dry-run branch, after the records of a dry
    run. *)
Theorem dry_run_is_always_truthy :
  (forall x, truthy (dry_run_value x) = true)
  /\ dry_run_value None = VBool true
  /\ dry_run_value (Some "") = VBool true
  /\ (forall s, s <> "" -> dry_run_value (Some s) = VStr s)
  /\ (forall env args st,
         invocations (trace (snd (generate_encryption_keys env args st)))
         = invocations (trace st))
  /\ (forall env args tags st,
         fst (validate_date env
                (or_default (Namespace.expiration args)
                   (DEFAULT_ENCRYPTION_KEY_EXPIRATION env)) st) = Ok tt ->
         fst (tags_of env (Namespace.tags args) st) = Ok tags ->
         generate_encryption_keys env args st
         = (Ok tt,
            mkState
              (trace st
               ++ (if isEnabledFor INFO st
                   then dry_run_log env (Namespace.subscription_id args)
                          (Namespace.resource_group args)
                          (Namespace.location args)
                          (Namespace.vault_name args)
                          (or_default (Namespace.key_name args)
                             DEFAULT_ENCRYPTION_KEY_NAME)
                          (or_default (Namespace.key_version_name args)
                             DEFAULT_ENCRYPTION_KEY_VERSION_NAME)
                          (or_default (Namespace.expiration args)
                             (DEFAULT_ENCRYPTION_KEY_EXPIRATION env))
                          tags (dry_run_value (Namespace.dry_run args))
                   else []))%list
              (disabled st))).
Proof.
  split; [exact dry_run_value_truthy|].
  split; [reflexivity|]. split; [reflexivity|]. split; [|split].
  - intros [|a s] Hs; [congruence|reflexivity].
  - intros env args st. apply generate_encryption_keys_invocations.
  - intros env args tags st. apply generate_encryption_keys_dry.
Qed.

Lemma dry_run_is_always_truthy_witness :
  dry_run_value (Some "false") = VStr "false"
  /\ fst (generate_encryption_keys
            (Sample.env_of Sample.wrote_secret Sample.noon)
            (Sample.args None (Some "false")) Sample.start)
     = Ok tt.
Proof.
  split.
  - apply (proj1 (proj2 (proj2 (proj2 dry_run_is_always_truthy)))).
    discriminate.
  - rewrite (proj2 (proj2 (proj2 (proj2 (proj2 dry_run_is_always_truthy))))
               (Sample.env_of Sample.wrote_secret Sample.noon)
               (Sample.args None (Some "false")) [("a", "1"); ("b", "2")]
               Sample.start eq_refl eq_refl).
    reflexivity.
Defined.

(** C3, as stated, fails: with an expiration date in the past the
    function does not return at the dry-run branch, it is left by
    [SystemExit] in [validate_date], before line 65. *)
Lemma past_date_exits_before_dry_run :
  generate_encryption_keys (Sample.env_of Sample.wrote_secret Sample.noon)
    (Sample.args (Some "2000-01-01") (Some "true")) Sample.start
  = (Raise (SystemExit (ExitInt 1)),
     mkState
       [Log ERROR
          "Invalid expiration date '2000-01-01', should be in the future."
          []]
       NOTSET)
  /\ fst (generate_encryption_keys
            (Sample.env_of Sample.wrote_secret Sample.noon)
            (Sample.args (Some "2000-01-01") (Some "true")) Sample.start)
     <> Ok tt.
Proof.
  split; [reflexivity|]. intros H. discriminate H.
Qed.

(** C7.  In dry-run mode, that is with a truthy [dry_run], the workflow
    logs its settings and the two dry-run records and returns: it invokes
    the CLI for no account selection, existence check or secret, it does
    not sleep, and apart from the log records the state is unchanged.  So
    does [generate_encryption_keys] once the date is accepted and the
    tags are read. *)
Theorem dry_run_invokes_nothing (env : Env)
  (subscription_id resource_group location vault_name key_name
     key_version_name expiration : string)
  (tags : list (string * string)) (dry_run : value) (st : state) :
  truthy dry_run = true ->
  exists records,
    run_with_settings env subscription_id resource_group location vault_name
      key_name key_version_name expiration tags dry_run st
    = (Ok tt, mkState (trace st ++ records)%list (disabled st))
    /\ forallb is_log records = true
    /\ invocations (trace st ++ records) = invocations (trace st)
    /\ sleeps (trace st ++ records) = sleeps (trace st)
    /\ forall args,
         Namespace.subscription_id args = subscription_id ->
         Namespace.resource_group args = resource_group ->
         Namespace.location args = location ->
         Namespace.vault_name args = vault_name ->
         or_default (Namespace.key_name args) DEFAULT_ENCRYPTION_KEY_NAME
         = key_name ->
         or_default (Namespace.key_version_name args)
           DEFAULT_ENCRYPTION_KEY_VERSION_NAME = key_version_name ->
         or_default (Namespace.expiration args)
           (DEFAULT_ENCRYPTION_KEY_EXPIRATION env) = expiration ->
         dry_run_value (Namespace.dry_run args) = dry_run ->
         fst (validate_date env expiration st) = Ok tt ->
         fst (tags_of env (Namespace.tags args) st) = Ok tags ->
         generate_encryption_keys env args st
         = (Ok tt, mkState (trace st ++ records)%list (disabled st)).
Proof.
  intros Hdry.
  exists (if isEnabledFor INFO st
          then dry_run_log env subscription_id resource_group location
                 vault_name key_name key_version_name expiration tags dry_run
          else []).
  split; [apply run_with_settings_dry; exact Hdry|].
  rewrite invocations_app, sleeps_app.
  destruct (isEnabledFor INFO st) eqn:Hen; simpl; rewrite ?app_nil_r;
    repeat split; try reflexivity.
  all: intros args <- <- <- <- <- <- <- <- Hdate Htags.
  all: rewrite (generate_encryption_keys_dry env args st Hdate Htags), Hen.
  all: rewrite ?app_nil_r; reflexivity.
Qed.

Lemma dry_run_invokes_nothing_witness :
  truthy (VStr "false") = true
  /\ exists records,
       run_with_settings (Sample.env_of Sample.wrote_secret Sample.noon)
         "0000-1111" "rg" "westeurope" "kv" "key" "keyVersion" "2025-09-13"
         [("user", "alice")] (VStr "false") Sample.start
       = (Ok tt, mkState records NOTSET)
       /\ invocations records = [].
Proof.
  split; [reflexivity|].
  destruct (dry_run_invokes_nothing
              (Sample.env_of Sample.wrote_secret Sample.noon)
              "0000-1111" "rg" "westeurope" "kv" "key" "keyVersion"
              "2025-09-13" [("user", "alice")] (VStr "false") Sample.start
              eq_refl)
    as (records & Hrun & _ & Hinv & _).
  exists records. split; [exact Hrun|exact Hinv].
Defined.

(** Without dry-run mode the workflow does invoke the CLI: the branch the
    theorem above excludes is the one that reaches the secret store. *)
Example wet_run_invokes_the_cli :
  invocations (trace (snd
    (run_with_settings (Sample.env_of Sample.wrote_secret Sample.noon)
       "0000-1111" "rg" "westeurope" "kv" "key" "keyVersion" "2025-09-13"
       [("user", "alice")] (VBool false) Sample.start)))
  = [["account"; "list"; "--query"; "[?isDefault]"; "--output"; "json"]].
Proof. vm_compute. reflexivity. Qed.

(* ================================================================= *)
(** ** Tags *)

Section SplitJoin.

Variable c : ascii.

Lemma split_not_nil (s : string) : PyStr.split c s <> [].
Proof.
  destruct s as [|a s]; simpl; [discriminate|].
  destruct (Ascii.eqb a c); [discriminate|].
  destruct (PyStr.split c s); discriminate.
Qed.

(** Joining the parts with the separator gives the text back. *)
Lemma join_split (s : string) :
  PyStr.join (String c EmptyString) (PyStr.split c s) = s.
Proof.
  unfold PyStr.join.
  induction s as [|a s IH]; simpl; [reflexivity|].
  destruct (Ascii.eqb a c) eqn:Hac.
  - apply Ascii.eqb_eq in Hac. subst a.
    pose proof (split_not_nil s) as Hne.
    destruct (PyStr.split c s) as [|w ws]; [congruence|].
    simpl in *. rewrite IH. reflexivity.
  - destruct (PyStr.split c s) as [|w ws] eqn:Hs.
    + exfalso. exact (split_not_nil s Hs).
    + simpl in *. destruct ws as [|w' ws]; simpl in *.
      * rewrite IH. reflexivity.
      * rewrite IH. reflexivity.
Qed.

Lemma split_without (s : string) :
  PyStr.count c s = 0%nat -> PyStr.split c s = [s].
Proof.
  induction s as [|a s IH]; simpl; [reflexivity|].
  destruct (Ascii.eqb a c); simpl; [discriminate|].
  intros H. rewrite (IH H). reflexivity.
Qed.

(** A text with one separator splits into the text before it and the
    text after it. *)
Lemma split_once (s : string) :
  PyStr.count c s = 1%nat ->
  exists k v,
    PyStr.split c s = [k; v] /\ s = (k ++ String c v)%string.
Proof.
  induction s as [|a s IH]; simpl; [discriminate|].
  destruct (Ascii.eqb a c) eqn:Hac; simpl.
  - intros H. injection H as H.
    apply Ascii.eqb_eq in Hac. subst a.
    exists EmptyString, s. rewrite (split_without s H). split; reflexivity.
  - intros H. destruct (IH H) as (k & v & Hs & Heq).
    exists (String a k), v. rewrite Hs. subst s. split; reflexivity.
Qed.

End SplitJoin.

Lemma dict_set_fresh (k v : string) (d : list (string * string)) :
  ~ In k (map fst d) -> dict_set k v d = (d ++ [(k, v)])%list.
Proof.
  induction d as [|[k' v'] d IH]; simpl; intros H; [reflexivity|].
  destruct (String.eqb k' k) eqn:Hk.
  - apply String.eqb_eq in Hk. exfalso. apply H. left. exact Hk.
  - rewrite IH; [reflexivity|]. intros Hin. apply H. right. exact Hin.
Qed.

Lemma dict_get_in (k v : string) (d : list (string * string)) :
  NoDup (map fst d) -> In (k, v) d -> dict_get k d = Some v.
Proof.
  induction d as [|[k' v'] d IH]; simpl; intros Hnd Hin; [contradiction|].
  inversion Hnd as [|? ? Hnotin Hnd']; subst.
  destruct Hin as [Heq|Hin].
  - injection Heq as -> ->. rewrite String.eqb_refl. reflexivity.
  - destruct (String.eqb k' k) eqn:Hk.
    + apply String.eqb_eq in Hk. subst k'. exfalso. apply Hnotin.
      change k with (fst (k, v)). apply in_map. exact Hin.
    + apply IH; assumption.
Qed.

(** On tags with one [=] each and keys that are new to the dictionary,
    the loop appends the pairs in their order. *)
Lemma convert_tags_loop_appends (tags_list : list string) :
  forall (tags_dict : list (string * string)) (st : state),
    Forall (fun tag => PyStr.count "=" tag = 1%nat) tags_list ->
    NoDup (map fst tags_dict ++ map tag_key tags_list) ->
    convert_tags_loop tags_list tags_dict st
    = (Ok (tags_dict
           ++ map (fun tag => (tag_key tag, tag_value tag)) tags_list)%list,
       st).
Proof.
  induction tags_list as [|tag rest IH]; intros d st Hone Hnd; simpl.
  - rewrite app_nil_r. reflexivity.
  - inversion Hone as [|? ? Htag Hrest]; subst.
    destruct (split_once "=" tag Htag) as (k & v & Hs & _).
    unfold tag_key, tag_value. rewrite Hs. simpl.
    assert (Hk : tag_key tag = k) by (unfold tag_key; rewrite Hs; reflexivity).
    simpl in Hnd. rewrite Hk in Hnd.
    assert (Hfresh : ~ In k (map fst d)).
    { intros Hin. apply NoDup_remove_2 in Hnd. apply Hnd.
      apply in_or_app. left. exact Hin. }
    rewrite (dict_set_fresh k v d Hfresh).
    rewrite IH.
    + rewrite <- app_assoc. reflexivity.
    + exact Hrest.
    + rewrite map_app. simpl. rewrite <- app_assoc. simpl.
      apply NoDup_remove_1 in Hnd as Hnd1.
      apply NoDup_remove_2 in Hnd as Hnd2.
      clear - Hnd1 Hnd2.
      induction (map fst d) as [|x xs IHxs]; simpl in *.
      * constructor; assumption.
      * inversion Hnd1 as [|? ? Hx Hxs]; subst. constructor.
        -- intros Hin. apply in_app_or in Hin. destruct Hin as [Hin|[Hin|Hin]].
           ++ apply Hx. apply in_or_app. left. exact Hin.
           ++ subst x. apply Hnd2. left. reflexivity.
           ++ apply Hx. apply in_or_app. right. exact Hin.
        -- apply IHxs; [exact Hxs|]. intros Hin. apply Hnd2. right. exact Hin.
Qed.

(** C9.  For a tag text whose comma-separated parts have exactly one [=]
    each and distinct keys, [convert_tags] returns a dictionary that maps
    the key of each part to its value, holds the pairs in the order of the
    text, and written back as [key=value] joined by commas is the text
    again; ["a=1,b=2"] becomes [{a: 1, b: 2}]. *)
Theorem convert_tags_round_trip (tags : string) (st : state) :
  Forall (fun tag => PyStr.count "=" tag = 1%nat) (PyStr.split "," tags) ->
  NoDup (map tag_key (PyStr.split "," tags)) ->
  exists tags_dict,
    convert_tags tags st = (Ok tags_dict, st)
    /\ tags_dict
       = map (fun tag => (tag_key tag, tag_value tag)) (PyStr.split "," tags)
    /\ (forall tag,
           In tag (PyStr.split "," tags) ->
           dict_get (tag_key tag) tags_dict = Some (tag_value tag))
    /\ tags_to_string tags_dict = tags
    /\ convert_tags "a=1,b=2" st = (Ok [("a", "1"); ("b", "2")], st).
Proof.
  intros Hone Hnd.
  exists (map (fun tag => (tag_key tag, tag_value tag)) (PyStr.split "," tags)).
  split; [|split; [reflexivity|split; [|split; [|reflexivity]]]].
  - unfold convert_tags.
    rewrite (@convert_tags_loop_appends (PyStr.split "," tags) [] st Hone Hnd).
    reflexivity.
  - intros tag Hin. apply dict_get_in.
    + rewrite map_map. simpl. exact Hnd.
    + apply (in_map (fun tag => (tag_key tag, tag_value tag))). exact Hin.
  - unfold tags_to_string. rewrite map_map. simpl.
    rewrite <- (join_split "," tags) at 2.
    f_equal.
    induction Hone as [|tag rest Htag Hrest IH]; simpl; [reflexivity|].
    inversion Hnd as [|? ? _ Hnd']; subst.
    rewrite (IH Hnd').
    destruct (split_once "=" tag Htag) as (k & v & Hs & Heq).
    unfold tag_key, tag_value. rewrite Hs. simpl. rewrite <- Heq.
    reflexivity.
Qed.

Lemma convert_tags_round_trip_witness :
  Forall (fun tag => PyStr.count "=" tag = 1%nat)
    (PyStr.split "," "env=prod,owner=alice")
  /\ NoDup (map tag_key (PyStr.split "," "env=prod,owner=alice"))
  /\ exists tags_dict,
       convert_tags "env=prod,owner=alice" Sample.start
       = (Ok tags_dict, Sample.start)
       /\ tags_dict = [("env", "prod"); ("owner", "alice")]
       /\ tags_to_string tags_dict = "env=prod,owner=alice".
Proof.
  assert (Hone : Forall (fun tag => PyStr.count "=" tag = 1%nat)
                   (PyStr.split "," "env=prod,owner=alice"))
    by (repeat constructor).
  assert (Hnd : NoDup (map tag_key (PyStr.split "," "env=prod,owner=alice"))).
  { simpl. repeat constructor; simpl; intuition discriminate. }
  split; [exact Hone|]. split; [exact Hnd|].
  destruct (convert_tags_round_trip "env=prod,owner=alice" Sample.start
              Hone Hnd)
    as (tags_dict & Hconv & Hdict & _ & Hback & _).
  exists tags_dict. split; [exact Hconv|]. split; [exact Hdict|exact Hback].
Defined.

(* ================================================================= *)
(** * Further properties *)

(** ** The attempts of [az] *)

Section AzAttempt.

Variable env : Env.
Variable args : list string.
Variable redact_values : option (list string).

Local Arguments String.append : simpl never.
Local Opaque logged.

Ltac attempt_unfold :=
  unfold az_wrapped, bind, try_finally, logger_info, logger_error,
    logging_disable, az_cli_invoke, raise, ret.

(** The state in which an attempt calls [invoke]'s handlers: the record
    of line 109 and the invocation have been added, and logging is
    disabled up to ERROR. *)
Lemma az_wrapped_system_exit_eq (st : state) (code : exit_status) :
  invoked (run_at env args st) = Exits code ->
  az_wrapped env args redact_values st
  = (Raise
       (if code_is code 3 then AzCliResourceNotFoundException "Exit Code:0"
        else if is_unavailable_run (run_at env args st)
             then AzCliServiceUnavailableException "Exit Code:0"
             else AzCliExecutionException "Exit Code:0"),
     mkState
       (trace (logged INFO "az - Executing az %s"
                 [VStr (az_log_text args redact_values)] st)
        ++ [Invoke (args ++ ["--output"; "json"])])%list
       NOTSET).
Proof.
  unfold run_at, is_unavailable_run. intros H.
  attempt_unfold. rewrite logger_log_eq. simpl.
  rewrite logged_invocations, H. simpl.
  destruct (code_is code 3); simpl; [reflexivity|].
  destruct (code_is code 1); simpl.
  - destruct (result _) as [res|]; simpl.
    + destruct (PyStr.contains _ _); reflexivity.
    + reflexivity.
  - reflexivity.
Qed.

(** The same for a code that [invoke] returns: logging is enabled again
    when the output is read. *)
Lemma az_wrapped_returned_eq (st : state) (exit_code : Z) :
  invoked (run_at env args st) = Returns exit_code ->
  az_wrapped env args redact_values st
  = let st0 :=
      mkState
        (trace (logged INFO "az - Executing az %s"
                  [VStr (az_log_text args redact_values)] st)
         ++ [Invoke (args ++ ["--output"; "json"])])%list
        NOTSET in
    let output := out_file (run_at env args st) in
    if PyStr.truthy output && (exit_code =? 0) then
      match json_loads env output with
      | Some v => (Ok v, st0)
      | None =>
          (Raise (AzCliExecutionException
                    ("Exit Code:" ++ PyStr.of_Z exit_code)),
           logged ERROR "az - Failed to decode output: %s" [VStr output] st0)
      end
    else
      match result (run_at env args st) with
      | Some (mkResult (Some err)) =>
          (Raise (AzCliExecutionException
                    ("Exit Code:" ++ PyStr.of_Z exit_code
                     ++ ", Result:" ++ err)),
           logged ERROR "az - Command failed with error: %s" [VStr err] st0)
      | _ => (Ok VNone, st0)
      end.
Proof.
  unfold run_at. intros H.
  attempt_unfold. rewrite logger_log_eq. simpl.
  rewrite logged_invocations, H. simpl.
  destruct (PyStr.truthy _ && (exit_code =? 0)).
  - destruct (json_loads env _); rewrite ?logger_log_eq; reflexivity.
  - destruct (result _) as [[[err|]]|]; rewrite ?logger_log_eq; reflexivity.
Qed.

(** An attempt is retried exactly when its run is classified as
    service-unavailable. *)
Lemma az_wrapped_not_retried (st : state) :
  not_retried (fst (az_wrapped env args redact_values st))
  = negb (is_unavailable_run (run_at env args st)).
Proof.
  destruct (invoked (run_at env args st)) as [c|code] eqn:H.
  - rewrite (az_wrapped_returned_eq st H).
    unfold is_unavailable_run. rewrite H. cbv zeta.
    destruct (PyStr.truthy _ && (c =? 0)).
    + destruct (json_loads env _); reflexivity.
    + destruct (result _) as [[[err|]]|]; reflexivity.
  - rewrite (az_wrapped_system_exit_eq st H).
    unfold is_unavailable_run. rewrite H. cbn [fst].
    destruct code as [z| |m]; try reflexivity.
    unfold code_is.
    destruct (z =? 3) eqn:H3.
    + apply Z.eqb_eq in H3. subst z. reflexivity.
    + destruct (z =? 1); simpl; [|reflexivity].
      destruct (result _) as [res|]; [|reflexivity].
      destruct (PyStr.contains _ _); reflexivity.
Qed.

End AzAttempt.

Section Recovery.

Variable fn : M value.
Variable argv : list string.

Hypothesis fn_effect : forall st,
  invocations (trace (snd (fn st))) = (invocations (trace st) ++ [argv])%list
  /\ sleeps (trace (snd (fn st))) = sleeps (trace st)
  /\ disabled (snd (fn st)) = NOTSET.

(** After every attempt logging is enabled, so it is after the loop. *)
Lemma attempts_disabled (more : nat) :
  forall st, disabled (snd (attempts more fn st)) = NOTSET.
Proof.
  induction more as [|more IH]; intros st;
    destruct (fn_effect st) as (_ & _ & Hd); simpl;
    destruct (fn st) as [[v|e|] st']; simpl in *; try exact Hd;
    destruct (is_service_unavailable e); simpl; try exact Hd.
  apply IH.
Qed.

Hypothesis fn_returns : forall st, fst (fn st) <> Diverged.

Variable retried_at : list (list string) -> bool.

Hypothesis fn_retried : forall st,
  not_retried (fst (fn st)) = negb (retried_at (invocations (trace st))).

(** [k] retried attempts lead to a state with [k] more invocations and
    [k] sleeps of 5 seconds, in which the next attempt decides. *)
Lemma attempts_recover (k : nat) :
  forall (more : nat) (st : state),
    (k <= more)%nat ->
    (forall j, (j < k)%nat ->
               retried_at (invocations (trace st) ++ repeat argv j) = true) ->
    retried_at (invocations (trace st) ++ repeat argv k) = false ->
    exists st_k,
      invocations (trace st_k)
      = (invocations (trace st) ++ repeat argv k)%list
      /\ sleeps (trace st_k) = (sleeps (trace st) ++ repeat 5 k)%list
      /\ attempts more fn st = fn st_k.
Proof.
  induction k as [|k IH]; intros more st Hle Hfail Hok.
  - exists st. simpl in *. rewrite !app_nil_r in *.
    repeat split. apply attempts_final.
    rewrite fn_retried, Hok. reflexivity.
  - destruct more as [|more]; [lia|].
    pose proof (Hfail 0%nat ltac:(lia)) as H0. simpl in H0.
    rewrite app_nil_r in H0.
    pose proof (fn_retried st) as Hr. rewrite H0 in Hr.
    destruct (fn_effect st) as (Hi & Hs & _).
    pose proof (fn_returns st) as Hnd.
    simpl. destruct (fn st) as [[v|e|] st'] eqn:Efn; simpl in *;
      try discriminate Hr; [|congruence].
    destruct (is_service_unavailable e); [|discriminate Hr].
    destruct (IH more (mkState (trace st' ++ [Sleep 5]) (disabled st')))
      as (st_k & Hik & Hsk & Hattempts).
    + lia.
    + intros j Hj. simpl. rewrite invocations_app, Hi. simpl.
      rewrite app_nil_r, <- app_assoc. apply (Hfail (S j)). lia.
    + simpl. rewrite invocations_app, Hi. simpl.
      rewrite app_nil_r, <- app_assoc. exact Hok.
    + exists st_k. simpl in Hik, Hsk.
      rewrite invocations_app, Hi in Hik. rewrite sleeps_app, Hs in Hsk.
      simpl in Hik, Hsk. rewrite app_nil_r, <- app_assoc in Hik.
      rewrite <- app_assoc in Hsk.
      repeat split; assumption.
Qed.

End Recovery.

(** X2.  [az] leaves [logging.disable] at NOTSET, whatever the level was
    before the call and however the call ends. *)
Theorem az_leaves_logging_enabled (env : Env) (args : list string)
  (redact_values : option (list string)) (st : state) :
  disabled (snd (az env args redact_values st)) = NOTSET
  /\ disabled (snd (az_wrapped env args redact_values st)) = NOTSET.
Proof.
  split.
  - rewrite az_attempts.
    apply attempts_disabled with (argv := (args ++ ["--output"; "json"])%list).
    intros st0.
    destruct (az_wrapped_effect env args redact_values st0)
      as (Hi & Hs & Hd & _).
    repeat split; assumption.
  - apply az_wrapped_effect.
Qed.

(** X1.  When the first [k] attempts of [az], at most four, get a run of
    the CLI that is classified as service-unavailable and the next one
    does not, [az] ends with the outcome of that next attempt, made after
    [k] invocations and [k] sleeps of 5 seconds. *)
Theorem az_recovers (env : Env) (args : list string)
  (redact_values : option (list string)) (st : state) (k : nat) :
  (k <= 4)%nat ->
  (forall j, (j < k)%nat ->
     is_unavailable_run
       (cli env
          (invocations (trace st) ++ repeat (args ++ ["--output"; "json"]) j)
          (args ++ ["--output"; "json"])) = true)%list ->
  is_unavailable_run
    (cli env
       (invocations (trace st) ++ repeat (args ++ ["--output"; "json"]) k)
       (args ++ ["--output"; "json"]))%list = false ->
  exists st_k,
    invocations (trace st_k)
    = (invocations (trace st) ++ repeat (args ++ ["--output"; "json"]) k)%list
    /\ sleeps (trace st_k) = (sleeps (trace st) ++ repeat 5 k)%list
    /\ az env args redact_values st = az_wrapped env args redact_values st_k.
Proof.
  intros Hk Hfail Hok. rewrite az_attempts.
  apply attempts_recover
    with (retried_at := fun h =>
            is_unavailable_run (cli env h (args ++ ["--output"; "json"])%list));
    try assumption.
  - intros st0.
    destruct (az_wrapped_effect env args redact_values st0)
      as (Hi & Hs & Hd & _).
    repeat split; assumption.
  - intros st0 Hdiv.
    destruct (az_wrapped_effect env args redact_values st0)
      as (_ & _ & _ & Hr).
    rewrite Hdiv in Hr. exact Hr.
  - intros st0. apply az_wrapped_not_retried.
Qed.

Lemma az_recovers_witness :
  exists st_k,
    invocations (trace st_k)
    = repeat ["keyvault"; "secret"; "set"; "--output"; "json"] 2
    /\ sleeps (trace st_k) = [5; 5]
    /\ az (Sample2.flaky 2 Sample.wrote_secret)
         ["keyvault"; "secret"; "set"] None Sample.start
       = az_wrapped (Sample2.flaky 2 Sample.wrote_secret)
           ["keyvault"; "secret"; "set"] None st_k.
Proof.
  apply (az_recovers (Sample2.flaky 2 Sample.wrote_secret)
           ["keyvault"; "secret"; "set"] None Sample.start (k := 2)).
  - lia.
  - intros [|[|j]] Hj; try reflexivity. lia.
  - reflexivity.
Defined.

Example az_recovers_after_two_failures :
  fst (az (Sample2.flaky 2 Sample.wrote_secret)
         ["keyvault"; "secret"; "set"] None Sample.start)
  = Ok (VList [VStr Sample.secret_id]).
Proof. reflexivity. Qed.

(** X3.  The failure of an attempt that a [SystemExit] ends carries the text
    built from [exit_code], which is still 0 at lines 120-126. *)
Theorem az_system_exit_message (env : Env) (args : list string)
  (redact_values : option (list string)) (st : state) (code : exit_status) :
  invoked (run_at env args st) = Exits code ->
  fst (az_wrapped env args redact_values st)
  = Raise (AzCliResourceNotFoundException "Exit Code:0")
  \/ fst (az_wrapped env args redact_values st)
     = Raise (AzCliServiceUnavailableException "Exit Code:0")
  \/ fst (az_wrapped env args redact_values st)
     = Raise (AzCliExecutionException "Exit Code:0").
Proof.
  intros H. rewrite (az_wrapped_system_exit_eq env args redact_values st H).
  cbn [fst]. destruct (code_is code 3); [left; reflexivity|].
  destruct (is_unavailable_run _); [right; left|right; right]; reflexivity.
Qed.

Lemma az_system_exit_message_witness :
  fst (az_wrapped
         (Sample.env_of (mkRun (Exits (ExitInt 2)) "" None) Sample.noon)
         ["group"; "show"] None Sample.start)
  = Raise (AzCliResourceNotFoundException "Exit Code:0")
  \/ fst (az_wrapped
            (Sample.env_of (mkRun (Exits (ExitInt 2)) "" None) Sample.noon)
            ["group"; "show"] None Sample.start)
     = Raise (AzCliServiceUnavailableException "Exit Code:0")
  \/ fst (az_wrapped
            (Sample.env_of (mkRun (Exits (ExitInt 2)) "" None) Sample.noon)
            ["group"; "show"] None Sample.start)
     = Raise (AzCliExecutionException "Exit Code:0").
Proof.
  apply (az_system_exit_message
           (Sample.env_of (mkRun (Exits (ExitInt 2)) "" None) Sample.noon)
           ["group"; "show"] None Sample.start (code := ExitInt 2)).
  reflexivity.
Defined.

(** X4.  When a [SystemExit] ends [invoke], the attempt adds the record of
    line 109 (if INFO is enabled) and the invocation, and nothing else:
    the [logger.error] of line 125 runs while [logging.disable(ERROR)] is
    in force, so no record of the failed command is emitted. *)
Theorem az_system_exit_is_not_logged (env : Env) (args : list string)
  (redact_values : option (list string)) (st : state) (code : exit_status) :
  invoked (run_at env args st) = Exits code ->
  trace (snd (az_wrapped env args redact_values st))
  = (trace st
     ++ (if isEnabledFor INFO st
         then [Log INFO "az - Executing az %s"
                 [VStr (az_log_text args redact_values)]]
         else [])
     ++ [Invoke (args ++ ["--output"; "json"])])%list.
Proof.
  intros H. rewrite (az_wrapped_system_exit_eq env args redact_values st H).
  unfold logged. cbn [snd trace]. rewrite <- app_assoc. reflexivity.
Qed.

Lemma az_system_exit_is_not_logged_witness :
  trace (snd (az_wrapped (Sample.env_of Sample.refused Sample.noon)
                ["group"; "show"] None Sample.start))
  = [Log INFO "az - Executing az %s" [VStr "group show --output json"];
     Invoke ["group"; "show"; "--output"; "json"]].
Proof.
  apply (az_system_exit_is_not_logged
           (Sample.env_of Sample.refused Sample.noon)
           ["group"; "show"] None Sample.start (code := ExitInt 1)).
  reflexivity.
Defined.

(** X5.  When [invoke] returns a code other than 0, the output is not read:
    [az] raises [AzCliExecutionException] with the code and the error if
    [az_cli.result] has an error, and returns [None] otherwise; there is
    no retry. *)
Theorem az_returned_nonzero (env : Env) (args : list string)
  (redact_values : option (list string)) (st : state) (exit_code : Z) :
  invoked (run_at env args st) = Returns exit_code ->
  exit_code <> 0 ->
  fst (az env args redact_values st)
  = match result (run_at env args st) with
    | Some (mkResult (Some err)) =>
        Raise (AzCliExecutionException
                 ("Exit Code:" ++ PyStr.of_Z exit_code ++ ", Result:" ++ err))
    | _ => Ok VNone
    end
  /\ az env args redact_values st = az_wrapped env args redact_values st.
Proof.
  intros H Hne.
  assert (Haz : az env args redact_values st
                = az_wrapped env args redact_values st).
  { apply az_first_attempt. rewrite az_wrapped_not_retried.
    unfold is_unavailable_run. rewrite H. reflexivity. }
  rewrite Haz. split; [|reflexivity].
  rewrite (az_wrapped_returned_eq env args redact_values st H). cbv zeta.
  replace (exit_code =? 0) with false by (symmetry; apply Z.eqb_neq; exact Hne).
  rewrite andb_false_r.
  destruct (result _) as [[[err|]]|]; reflexivity.
Qed.

Lemma az_returned_nonzero_witness :
  fst (az (Sample.env_of (mkRun (Returns 2) "[]" None) Sample.noon)
         ["group"; "show"] None Sample.start)
  = Ok VNone.
Proof.
  apply (proj1 (az_returned_nonzero
                  (Sample.env_of (mkRun (Returns 2) "[]" None) Sample.noon)
                  ["group"; "show"] None Sample.start (exit_code := 2)
                  eq_refl ltac:(discriminate))).
Defined.

(** The number of invocations of a call of [az]. *)
Lemma az_invocation_count (env : Env) (args : list string)
  (redact_values : option (list string)) (st : state) :
  exists n : nat,
    (1 <= n <= 5)%nat
    /\ invocations (trace (snd (az env args redact_values st)))
       = (invocations (trace st)
          ++ repeat (args ++ ["--output"; "json"]) n)%list.
Proof.
  rewrite az_attempts.
  destruct (@attempts_count (az_wrapped env args redact_values)
              (args ++ ["--output"; "json"])%list) with (more := 4%nat)
                                                        (st := st)
    as (n & Hn & Hi & _).
  - intros st0.
    destruct (az_wrapped_effect env args redact_values st0)
      as (Hi & Hs & _ & Hr).
    repeat split; assumption.
  - exists n. split; assumption.
Qed.

(* ================================================================= *)
(** ** The existence probes *)

Section Probes.

Variable env : Env.

Lemma probe_eq (args : list string) (st : state) :
  try_except (r <- az env args None ;; ret (is_not_none r))
    (fun e => if is_resource_not_found e then ret false else raise e) st
  = match az env args None st with
    | (Ok v, st') => (Ok (is_not_none v), st')
    | (Raise e, st') =>
        if is_resource_not_found e then (Ok false, st') else (Raise e, st')
    | (Diverged, st') => (Diverged, st')
    end.
Proof.
  unfold try_except, bind, ret, raise.
  destruct (az env args None st) as [[v|e|] st']; try reflexivity.
  destruct (is_resource_not_found e); reflexivity.
Qed.

(** What a probe answers, by the run of the CLI its query gets. *)
Lemma probe_answers (args : list string) (st : state) :
  (invoked (run_at env args st) = Exits (ExitInt 3) ->
   fst (try_except (r <- az env args None ;; ret (is_not_none r))
          (fun e => if is_resource_not_found e then ret false else raise e)
          st) = Ok false)
  /\ (invoked (run_at env args st) = Returns 0 ->
      out_file (run_at env args st) = "" ->
      result (run_at env args st) = None ->
      fst (try_except (r <- az env args None ;; ret (is_not_none r))
             (fun e => if is_resource_not_found e then ret false else raise e)
             st) = Ok false)
  /\ (forall v,
        invoked (run_at env args st) = Returns 0 ->
        out_file (run_at env args st) <> "" ->
        json_loads env (out_file (run_at env args st)) = Some v ->
        fst (try_except (r <- az env args None ;; ret (is_not_none r))
               (fun e =>
                  if is_resource_not_found e then ret false else raise e)
               st) = Ok (is_not_none v))
  /\ (forall e,
        fst (az env args None st) = Raise e ->
        is_resource_not_found e = false ->
        fst (try_except (r <- az env args None ;; ret (is_not_none r))
               (fun e =>
                  if is_resource_not_found e then ret false else raise e)
               st) = Raise e)
  /\ snd (try_except (r <- az env args None ;; ret (is_not_none r))
            (fun e => if is_resource_not_found e then ret false else raise e)
            st)
     = snd (az env args None st).
Proof.
  rewrite probe_eq. repeat split.
  - intros H.
    pose proof (az_wrapped_exit_3 env args None st H) as Hw.
    rewrite az_first_attempt by (rewrite Hw; reflexivity).
    destruct (az_wrapped env args None st) as [r st']. simpl in Hw. subst r.
    reflexivity.
  - intros H Hout Hres.
    pose proof (az_wrapped_empty env args None st H Hout) as Hw.
    rewrite Hres in Hw.
    rewrite az_first_attempt by (rewrite Hw; reflexivity).
    destruct (az_wrapped env args None st) as [r st']. simpl in Hw. subst r.
    reflexivity.
  - intros v H Hout Hv.
    pose proof (az_wrapped_decoded env args None st H Hout) as Hw.
    rewrite Hv in Hw.
    rewrite az_first_attempt by (rewrite Hw; reflexivity).
    destruct (az_wrapped env args None st) as [r st']. simpl in Hw. subst r.
    reflexivity.
  - intros e He Hnf.
    destruct (az env args None st) as [r st']. simpl in He. subst r.
    rewrite Hnf. reflexivity.
  - destruct (az env args None st) as [[v|e|] st']; try reflexivity.
    destruct (is_resource_not_found e); reflexivity.
Qed.

End Probes.

(** X7.  [group_exists] answers [False], and raises nothing, when the CLI exits
    with code 3 on [group show], and also when it returns 0 without any
    output; it answers whether the decoded output is not [None] when
    there is output; every failure of [az] other than resource-not-found
    is handed on; and nothing happens beyond the call of [az]. *)
Theorem group_exists_answers (env : Env) (resource_group : string)
  (st : state) :
  (invoked (run_at env (group_show_args resource_group) st)
   = Exits (ExitInt 3) ->
   fst (group_exists env resource_group st) = Ok false)
  /\ (invoked (run_at env (group_show_args resource_group) st) = Returns 0 ->
      out_file (run_at env (group_show_args resource_group) st) = "" ->
      result (run_at env (group_show_args resource_group) st) = None ->
      fst (group_exists env resource_group st) = Ok false)
  /\ (forall v,
        invoked (run_at env (group_show_args resource_group) st)
        = Returns 0 ->
        out_file (run_at env (group_show_args resource_group) st) <> "" ->
        json_loads env
          (out_file (run_at env (group_show_args resource_group) st))
        = Some v ->
        fst (group_exists env resource_group st) = Ok (is_not_none v))
  /\ (forall e,
        fst (az env (group_show_args resource_group) None st) = Raise e ->
        is_resource_not_found e = false ->
        fst (group_exists env resource_group st) = Raise e)
  /\ snd (group_exists env resource_group st)
     = snd (az env (group_show_args resource_group) None st).
Proof.
  exact (probe_answers env (group_show_args resource_group) st).
Qed.

Lemma group_exists_answers_witness :
  fst (group_exists (Sample.env_of Sample.missing Sample.noon) "rg"
         Sample.start) = Ok false
  /\ fst (group_exists (Sample.env_of Sample.silent Sample.noon) "rg"
            Sample.start) = Ok false
  /\ fst (group_exists (Sample.env_of Sample.wrote_secret Sample.noon) "rg"
            Sample.start) = Ok true
  /\ fst (group_exists (Sample.env_of Sample.refused Sample.noon) "rg"
            Sample.start)
     = Raise (AzCliExecutionException "Exit Code:0").
Proof.
  split; [|split; [|split]].
  - apply (proj1 (group_exists_answers
                    (Sample.env_of Sample.missing Sample.noon) "rg"
                    Sample.start)).
    reflexivity.
  - apply (proj1 (proj2 (group_exists_answers
                           (Sample.env_of Sample.silent Sample.noon) "rg"
                           Sample.start))); reflexivity.
  - apply (proj1 (proj2 (proj2 (group_exists_answers
                                  (Sample.env_of Sample.wrote_secret
                                     Sample.noon) "rg" Sample.start)))
             (VList [VStr Sample.secret_id]));
      reflexivity || discriminate.
  - apply (proj1 (proj2 (proj2 (proj2 (group_exists_answers
                                         (Sample.env_of Sample.refused
                                            Sample.noon) "rg"
                                         Sample.start)))));
      reflexivity.
Defined.

(** X8.  [vault_exists] does the same with [keyvault show]. *)
Theorem vault_exists_answers (env : Env) (resource_group vault_name : string)
  (st : state) :
  (invoked (run_at env (vault_show_args resource_group vault_name) st)
   = Exits (ExitInt 3) ->
   fst (vault_exists env resource_group vault_name st) = Ok false)
  /\ (invoked (run_at env (vault_show_args resource_group vault_name) st)
      = Returns 0 ->
      out_file (run_at env (vault_show_args resource_group vault_name) st)
      = "" ->
      result (run_at env (vault_show_args resource_group vault_name) st)
      = None ->
      fst (vault_exists env resource_group vault_name st) = Ok false)
  /\ (forall v,
        invoked (run_at env (vault_show_args resource_group vault_name) st)
        = Returns 0 ->
        out_file (run_at env (vault_show_args resource_group vault_name) st)
        <> "" ->
        json_loads env
          (out_file
             (run_at env (vault_show_args resource_group vault_name) st))
        = Some v ->
        fst (vault_exists env resource_group vault_name st)
        = Ok (is_not_none v))
  /\ (forall e,
        fst (az env (vault_show_args resource_group vault_name) None st)
        = Raise e ->
        is_resource_not_found e = false ->
        fst (vault_exists env resource_group vault_name st) = Raise e)
  /\ snd (vault_exists env resource_group vault_name st)
     = snd (az env (vault_show_args resource_group vault_name) None st).
Proof.
  exact (probe_answers env (vault_show_args resource_group vault_name) st).
Qed.

Lemma vault_exists_answers_witness :
  fst (vault_exists (Sample.env_of Sample.missing Sample.noon) "rg" "kv"
         Sample.start) = Ok false
  /\ fst (vault_exists (Sample.env_of Sample.unavailable Sample.noon)
            "rg" "kv" Sample.start)
     = Raise (RetryError
                (Failed (AzCliServiceUnavailableException "Exit Code:0"))).
Proof.
  split.
  - apply (proj1 (vault_exists_answers
                    (Sample.env_of Sample.missing Sample.noon) "rg" "kv"
                    Sample.start)).
    reflexivity.
  - apply (proj1 (proj2 (proj2 (proj2 (vault_exists_answers
                                         (Sample.env_of Sample.unavailable
                                            Sample.noon) "rg" "kv"
                                         Sample.start)))));
      reflexivity.
Defined.

(* ================================================================= *)
(** ** The active subscription *)

Section Subscription.

Variable env : Env.
Variable subscription_id : string.

Local Arguments String.append : simpl never.

(** X9.  Without a default account, that is when the first item of the
    answer to [account list] is missing or falsy, [select_subscription]
    raises [AzCliAccessException] naming the subscription, right after
    the query: no [account set] is issued and nothing is logged. *)
Theorem select_subscription_without_default
  (accounts subscription : value) (st st1 : state) :
  az env account_list_args None st = (Ok accounts, st1) ->
  first_item accounts st1 = (Ok subscription, st1) ->
  truthy subscription = false ->
  select_subscription env subscription_id st
  = (Raise (AzCliAccessException
              ("Not Logged into az cli or can't access subscription: "
               ++ subscription_id)),
     st1).
Proof.
  intros Haz Hfirst Hfalsy.
  unfold select_subscription, bind.
  change ["account"; "list"; "--query"; "[?isDefault]"]
    with account_list_args.
  rewrite Haz, Hfirst, Hfalsy. reflexivity.
Qed.

(** X10.  When the default account has the requested identifier, compared
    without regard to ASCII case, [select_subscription] issues no
    [account set]: it logs the selection and returns. *)
Theorem select_subscription_keeps_default
  (d : list (string * value)) (rest : list value) (id : string)
  (st st1 : state) :
  az env account_list_args None st = (Ok (VList (VDict d :: rest)), st1) ->
  dict_get "id" d = Some (VStr id) ->
  PyStr.lower id = PyStr.lower subscription_id ->
  select_subscription env subscription_id st
  = (Ok tt,
     logged INFO "Selected subscription: '%s'" [VStr subscription_id] st1).
Proof.
  intros Haz Hid Hsame.
  unfold select_subscription, bind.
  change ["account"; "list"; "--query"; "[?isDefault]"]
    with account_list_args.
  rewrite Haz. cbn [first_item ret].
  destruct d as [|kv d']; [discriminate Hid|].
  cbn [truthy negb getitem_str]. rewrite Hid. cbn [ret method_lower].
  rewrite Hsame, String.eqb_refl. cbn [negb ret].
  unfold logger_info. rewrite logger_log_eq. reflexivity.
Qed.


End Subscription.

Lemma select_subscription_without_default_witness :
  select_subscription
    (Sample2.answering Sample2.some_output (VList []) (Some "alice"))
    "0000-1111" Sample.start
  = (Raise (AzCliAccessException
              "Not Logged into az cli or can't access subscription: 0000-1111"),
     snd (az (Sample2.answering Sample2.some_output (VList []) (Some "alice"))
            account_list_args None Sample.start)).
Proof.
  apply (@select_subscription_without_default
           (Sample2.answering Sample2.some_output (VList []) (Some "alice"))
           "0000-1111" (VList []) VNone Sample.start _
           eq_refl eq_refl eq_refl).
Defined.

Lemma select_subscription_keeps_default_witness :
  fst (select_subscription
         (Sample2.answering Sample2.some_output (Sample2.account "ABCD-12")
            (Some "alice"))
         "abcd-12" Sample.start)
  = Ok tt
  /\ invocations (trace (snd (select_subscription
         (Sample2.answering Sample2.some_output (Sample2.account "ABCD-12")
            (Some "alice"))
         "abcd-12" Sample.start)))
     = [["account"; "list"; "--query"; "[?isDefault]"; "--output"; "json"]].
Proof.
  rewrite (@select_subscription_keeps_default
             (Sample2.answering Sample2.some_output
                (Sample2.account "ABCD-12") (Some "alice"))
             "abcd-12"
             [("id", VStr "ABCD-12"); ("isDefault", VBool true)]
             [] "ABCD-12" Sample.start _
             eq_refl eq_refl eq_refl).
  split; reflexivity.
Defined.


(* ================================================================= *)
(** ** The arguments of [keyvault secret set] *)

Lemma fold_left_app_flat_map (A B : Type) (f : A -> list B) (l : list A) :
  forall acc : list B,
    fold_left (fun a x => (a ++ f x)%list) l acc
    = (acc ++ flat_map f l)%list.
Proof.
  induction l as [|x l IH]; intros acc; simpl.
  - rewrite app_nil_r. reflexivity.
  - rewrite IH, <- app_assoc. reflexivity.
Qed.

(** [set_secret] always passes the thirteen fixed arguments, then
    [--expires] with the date unless the date is empty, then one
    [--tags key=value] pair for every entry of the dictionary, in its
    order; no dictionary and the empty dictionary give the same list. *)
Lemma set_secret_args_shape
  (key_vault secret_name secret_value content_type expiration_date : string)
  (tags : option (list (string * string))) :
  set_secret_args key_vault secret_name secret_value content_type
    expiration_date tags
  = (["keyvault"; "secret"; "set"; "--query"; "[id]";
      "--vault-name"; key_vault; "--name"; secret_name;
      "--value"; secret_value; "--content-type"; content_type]
     ++ (if String.eqb expiration_date "" then []
         else ["--expires"; expiration_date])
     ++ tag_arguments (match tags with Some d => d | None => [] end))%list.
Proof.
  unfold set_secret_args, tag_arguments.
  destruct expiration_date as [|a e]; cbn [PyStr.truthy String.eqb];
    destruct tags as [d|]; rewrite ?fold_left_app_flat_map;
    cbn [flat_map]; rewrite ?app_nil_r; rewrite <- ?app_assoc; reflexivity.
Qed.

(** X13.  A well-formed tag text reaches the CLI part by part: the dictionary
    [convert_tags] builds from it makes [set_secret] pass one [--tags]
    argument per comma-separated part, with the part as it was written. *)
Theorem tags_reach_the_cli (tags : string)
  (key_vault secret_name secret_value content_type expiration_date : string)
  (st : state) :
  Forall (fun tag => PyStr.count "=" tag = 1%nat) (PyStr.split "," tags) ->
  NoDup (map tag_key (PyStr.split "," tags)) ->
  exists tags_dict,
    convert_tags tags st = (Ok tags_dict, st)
    /\ tag_arguments tags_dict
       = flat_map (fun tag => ["--tags"; tag]) (PyStr.split "," tags)
    /\ set_secret_args key_vault secret_name secret_value content_type
         expiration_date (Some tags_dict)
       = (set_secret_args key_vault secret_name secret_value content_type
            expiration_date None
          ++ flat_map (fun tag => ["--tags"; tag]) (PyStr.split "," tags))%list.
Proof.
  intros Hone Hnd.
  exists (map (fun tag => (tag_key tag, tag_value tag)) (PyStr.split "," tags)).
  assert (Hargs :
            tag_arguments
              (map (fun tag => (tag_key tag, tag_value tag))
                 (PyStr.split "," tags))
            = flat_map (fun tag => ["--tags"; tag]) (PyStr.split "," tags)).
  { unfold tag_arguments. clear Hnd.
    induction Hone as [|tag rest Htag Hrest IH]; [reflexivity|].
    cbn [map flat_map fst snd app]. rewrite IH.
    destruct (split_once "=" tag Htag) as (k & v & Hs & Heq).
    unfold tag_key, tag_value. rewrite Hs. cbn [hd last].
    assert (Hkv : (k ++ "=" ++ v)%string = tag) by (rewrite Heq; reflexivity).
    rewrite Hkv. reflexivity. }
  split; [|split].
  - unfold convert_tags.
    rewrite (@convert_tags_loop_appends (PyStr.split "," tags) [] st Hone Hnd).
    reflexivity.
  - exact Hargs.
  - rewrite !set_secret_args_shape, Hargs. cbn [tag_arguments flat_map].
    rewrite app_nil_r, <- !app_assoc. reflexivity.
Qed.

Lemma tags_reach_the_cli_witness :
  exists tags_dict,
    convert_tags "env=prod,owner=alice" Sample.start
    = (Ok tags_dict, Sample.start)
    /\ tag_arguments tags_dict
       = ["--tags"; "env=prod"; "--tags"; "owner=alice"].
Proof.
  assert (Hone : Forall (fun tag => PyStr.count "=" tag = 1%nat)
                   (PyStr.split "," "env=prod,owner=alice"))
    by (repeat constructor).
  assert (Hnd : NoDup (map tag_key (PyStr.split "," "env=prod,owner=alice"))).
  { simpl. repeat constructor; simpl; intuition discriminate. }
  destruct (tags_reach_the_cli "env=prod,owner=alice" "kv" "name" "00ff"
              "application/octet-stream" "2025-09-13" Sample.start Hone Hnd)
    as (tags_dict & Hconv & Hargs & _).
  exists tags_dict. split; [exact Hconv|exact Hargs].
Defined.

(* ================================================================= *)
(** ** What [az] logs *)

Lemma string_app_assoc (a b c : string) :
  ((a ++ b) ++ c)%string = (a ++ (b ++ c))%string.
Proof.
  induction a as [|x a IH]; simpl; [reflexivity|]. rewrite IH. reflexivity.
Qed.

Lemma substring_middle (a p b : string) :
  String.substring (String.length a) (String.length p) (a ++ p ++ b) = p.
Proof.
  induction a as [|x a IH]; simpl; [|exact IH].
  induction p as [|y p IHp]; simpl.
  - destruct b; reflexivity.
  - rewrite IHp. reflexivity.
Qed.

(** A text contains each of its parts. *)
Lemma contains_middle (a p b : string) :
  PyStr.contains p (a ++ p ++ b) = true.
Proof.
  unfold PyStr.contains.
  destruct (String.index 0 p (a ++ p ++ b)) as [m|] eqn:Hindex;
    [reflexivity|].
  exfalso. destruct p as [|y p].
  - apply String.index_correct4 in Hindex. lia.
  - apply (String.index_correct3 0 (String.length a) _ _ Hindex).
    + discriminate.
    + lia.
    + apply substring_middle.
Qed.

Lemma join_contains (sep x : string) (l : list string) :
  In x l -> PyStr.contains x (PyStr.join sep l) = true.
Proof.
  unfold PyStr.join. intros Hin.
  assert (H : exists a b, String.concat sep l = (a ++ x ++ b)%string).
  { induction l as [|y l IH]; [contradiction|].
    destruct Hin as [->|Hin].
    - destruct l as [|z l]; simpl.
      + exists EmptyString, EmptyString. simpl.
        clear. induction x as [|c x IH]; simpl; [reflexivity|].
        rewrite <- IH. reflexivity.
      + exists EmptyString, (sep ++ String.concat sep (z :: l))%string.
        reflexivity.
    - destruct (IH Hin) as (a & b & Heq).
      destruct l as [|z l]; [contradiction|].
      exists (y ++ sep ++ a)%string, b.
      change (String.concat sep (y :: z :: l))
        with (y ++ sep ++ String.concat sep (z :: l))%string.
      rewrite Heq, !string_app_assoc. reflexivity. }
  destruct H as (a & b & ->). apply contains_middle.
Qed.

Section Logged.

Variable fn : M value.

Hypothesis fn_extends : forall st,
  exists events, trace (snd (fn st)) = (trace st ++ events)%list.

(** The loop only adds to the trace of its first attempt. *)
Lemma attempts_extends (more : nat) :
  forall st, exists events,
    trace (snd (attempts more fn st)) = (trace (snd (fn st)) ++ events)%list.
Proof.
  induction more as [|more IH]; intros st; simpl;
    destruct (fn st) as [[v|e|] st'] eqn:Efn; simpl;
    try (exists []; rewrite app_nil_r; reflexivity);
    destruct (is_service_unavailable e); simpl;
    try (exists []; rewrite app_nil_r; reflexivity).
  destruct (IH (mkState (trace st' ++ [Sleep 5]) (disabled st')))
    as (events & Hev).
  destruct (fn_extends (mkState (trace st' ++ [Sleep 5]) (disabled st')))
    as (events' & Hev').
  rewrite Hev, Hev'. simpl. rewrite <- !app_assoc.
  eexists. reflexivity.
Qed.

End Logged.

(** The first thing a call of [az] adds to the trace is the record of
    line 109, if INFO is enabled, and then the invocation. *)
Lemma az_trace_begins (env : Env) (args : list string)
  (redact_values : option (list string)) (st : state) :
  exists events,
    trace (snd (az env args redact_values st))
    = (trace st
       ++ (if isEnabledFor INFO st
           then [Log INFO "az - Executing az %s"
                   [VStr (az_log_text args redact_values)]]
           else [])
       ++ Invoke (args ++ ["--output"; "json"]) :: events)%list.
Proof.
  assert (Hw : forall st0, exists events,
             trace (snd (az_wrapped env args redact_values st0))
             = (trace st0
                ++ (if isEnabledFor INFO st0
                    then [Log INFO "az - Executing az %s"
                            [VStr (az_log_text args redact_values)]]
                    else [])
                ++ Invoke (args ++ ["--output"; "json"]) :: events)%list).
  { intros st0.
    destruct (invoked (run_at env args st0)) as [c|code] eqn:H.
    - rewrite (az_wrapped_returned_eq env args redact_values st0 H).
      cbv zeta.
      destruct (PyStr.truthy _ && (c =? 0));
        [destruct (json_loads env _)
        |destruct (result _) as [[[err|]]|]];
        unfold logged; cbn [snd trace disabled];
        rewrite <- ?app_assoc; cbn [app];
        eexists; reflexivity.
    - rewrite (az_wrapped_system_exit_eq env args redact_values st0 H).
      unfold logged. cbn [snd trace]. rewrite <- app_assoc.
      exists []. reflexivity. }
  rewrite az_attempts.
  destruct (@attempts_extends (az_wrapped env args redact_values)) with
    (more := 4%nat) (st := st) as (events & Hev).
  - intros st0. destruct (Hw st0) as (ev & Hev). rewrite Hev.
    eexists. reflexivity.
  - destruct (Hw st) as (ev & Hev'). rewrite Hev, Hev'.
    rewrite <- !app_assoc. cbn [app]. eexists. reflexivity.
Qed.

(** X14.  [set_secret] calls [az] without values to redact: with INFO enabled,
    the first record it logs is the whole command line, and that text
    contains the value of the secret. *)
Theorem set_secret_logs_the_value (env : Env)
  (key_vault secret_name secret_value content_type expiration_date : string)
  (tags : option (list (string * string))) (st : state) :
  isEnabledFor INFO st = true ->
  exists events,
    trace (snd (set_secret env key_vault secret_name secret_value
                  content_type expiration_date tags st))
    = (trace st
       ++ Log INFO "az - Executing az %s"
            [VStr (PyStr.join " "
                     (set_secret_args key_vault secret_name secret_value
                        content_type expiration_date tags
                      ++ ["--output"; "json"])%list)]
          :: events)%list
    /\ PyStr.contains secret_value
         (PyStr.join " "
            (set_secret_args key_vault secret_name secret_value content_type
               expiration_date tags
             ++ ["--output"; "json"])%list)
       = true.
Proof.
  intros Henabled. unfold set_secret.
  destruct (az_trace_begins env
              (set_secret_args key_vault secret_name secret_value
                 content_type expiration_date tags) None st)
    as (events & Hev).
  rewrite Henabled in Hev. cbn [az_log_text app] in Hev.
  eexists. split; [exact Hev|].
  apply join_contains. apply in_or_app. left.
  rewrite set_secret_args_shape. simpl. tauto.
Qed.

Lemma set_secret_logs_the_value_witness :
  exists events,
    trace (snd (set_secret (Sample.env_of Sample.wrote_secret Sample.noon)
                  "kv" "symmetricKey" "c0ffee" "application/octet-stream"
                  "2025-09-13" None Sample.start))
    = Log INFO "az - Executing az %s"
        [VStr "keyvault secret set --query [id] --vault-name kv --name symmetricKey --value c0ffee --content-type application/octet-stream --expires 2025-09-13 --output json"]
      :: events.
Proof.
  destruct (set_secret_logs_the_value
              (Sample.env_of Sample.wrote_secret Sample.noon)
              "kv" "symmetricKey" "c0ffee" "application/octet-stream"
              "2025-09-13" None Sample.start eq_refl)
    as (events & Hev & _).
  exists events. exact Hev.
Defined.

(* ================================================================= *)
(** ** Dates *)

Lemma is_digit_bounds (a : ascii) :
  Date.is_digit a = true -> 0 <= Date.digit a <= 9.
Proof.
  unfold Date.is_digit, Date.digit. intros H.
  apply andb_true_iff in H. destruct H as [Hlo Hhi].
  apply Nat.leb_le in Hlo. apply Nat.leb_le in Hhi. lia.
Qed.

Lemma between_bounds (lo hi : Z) (a : ascii) :
  Date.between lo hi a = true ->
  Date.is_digit a = true /\ lo <= Date.digit a <= hi.
Proof.
  unfold Date.between. intros H.
  apply andb_true_iff in H. destruct H as [H Hhi].
  apply andb_true_iff in H. destruct H as [Hd Hlo].
  apply Z.leb_le in Hlo. apply Z.leb_le in Hhi. auto.
Qed.

Lemma int_one (a : ascii) :
  Date.is_digit a = true -> Date.int (String a EmptyString) = Date.digit a.
Proof.
  unfold Date.int. simpl. intros ->. reflexivity.
Qed.

Lemma int_two (a b : ascii) :
  Date.is_digit a = true -> Date.is_digit b = true ->
  Date.int (String a (String b EmptyString))
  = 10 * Date.digit a + Date.digit b.
Proof.
  unfold Date.int. simpl. intros -> ->. lia.
Qed.

Lemma month_form_bounds (s : string) :
  Date.month_form s = true -> 1 <= Date.int s <= 12.
Proof.
  destruct s as [|a [|b [|c s]]]; simpl; try discriminate.
  - intros H. apply between_bounds in H. destruct H as [Hd Hb].
    rewrite (int_one a Hd). lia.
  - intros H. apply orb_true_iff in H.
    destruct H as [H|H]; apply andb_true_iff in H; destruct H as [Ha Hb];
      apply Ascii.eqb_eq in Ha; subst a;
      apply between_bounds in Hb; destruct Hb as [Hd Hb];
      rewrite int_two by (reflexivity || exact Hd);
      change (Date.digit "1") with 1; change (Date.digit "0") with 0; lia.
Qed.

Lemma day_form_bounds (s : string) :
  Date.day_form s = true -> 1 <= Date.int s.
Proof.
  destruct s as [|a [|b [|c s]]]; simpl; try discriminate.
  - intros H. apply between_bounds in H. destruct H as [Hd Hb].
    rewrite (int_one a Hd). lia.
  - intros H. repeat (apply orb_true_iff in H; destruct H as [H|H]);
      apply andb_true_iff in H; destruct H as [Ha Hb].
    + apply Ascii.eqb_eq in Ha. subst a.
      apply between_bounds in Hb. destruct Hb as [Hd Hb].
      rewrite int_two by (reflexivity || exact Hd).
      change (Date.digit "3") with 3. lia.
    + apply between_bounds in Ha. destruct Ha as [Hda Ha].
      pose proof (is_digit_bounds b Hb).
      rewrite int_two by assumption. lia.
    + apply Ascii.eqb_eq in Ha. subst a.
      apply between_bounds in Hb. destruct Hb as [Hd Hb].
      rewrite int_two by (reflexivity || exact Hd).
      change (Date.digit "0") with 0. lia.
    + apply Ascii.eqb_eq in Ha. subst a.
      apply between_bounds in Hb. destruct Hb as [Hd Hb].
      unfold Date.int. simpl. rewrite Hd. lia.
Qed.

Lemma year_form_bounds (s : string) :
  Date.year_form s = true -> 0 <= Date.int s <= 9999.
Proof.
  unfold Date.year_form. intros H.
  apply andb_true_iff in H. destruct H as [Hlen Hall].
  apply Nat.eqb_eq in Hlen.
  destruct s as [|a [|b [|c [|d [|e s]]]]]; simpl in Hlen; try discriminate.
  simpl in Hall.
  repeat (apply andb_true_iff in Hall; destruct Hall as [? Hall]).
  unfold Date.int. cbn [Date.int_from].
  repeat match goal with
         | H : Date.is_digit ?x = true |- _ =>
             rewrite H; apply is_digit_bounds in H
         end.
  lia.
Qed.

(** What [strptime] returns is a calendar date at midnight. *)
Lemma strptime_fields (s : string) (d : datetime) :
  Date.strptime s = Some d ->
  1 <= year d <= 9999
  /\ 1 <= month d <= 12
  /\ 1 <= day d <= Date.days_in_month (year d) (month d)
  /\ hour d = 0 /\ minute d = 0 /\ second d = 0 /\ microsecond d = 0.
Proof.
  unfold Date.strptime.
  destruct (PyStr.split "-" s) as [|y [|m [|dd [|x l]]]]; try discriminate.
  destruct (Date.year_form y && Date.month_form m && Date.day_form dd)
    eqn:Hforms; [|discriminate].
  destruct ((1 <=? Date.int y)
            && (Date.int dd <=? Date.days_in_month (Date.int y) (Date.int m)))
    eqn:Hrange; [|discriminate].
  intros [= <-]. cbn [year month day hour minute second microsecond].
  apply andb_true_iff in Hforms. destruct Hforms as [Hforms Hd].
  apply andb_true_iff in Hforms. destruct Hforms as [Hy Hm].
  apply andb_true_iff in Hrange. destruct Hrange as [Hy1 Hdmax].
  apply Z.leb_le in Hy1. apply Z.leb_le in Hdmax.
  pose proof (year_form_bounds y Hy).
  pose proof (month_form_bounds m Hm).
  pose proof (day_form_bounds dd Hd).
  repeat split; lia.
Qed.



Example validate_date_rejects_impossible_days :
  fst (validate_date (Sample.env_of Sample.wrote_secret Sample.noon)
         "2027-02-29" Sample.start) = Raise (SystemExit (ExitInt 1))
  /\ fst (validate_date (Sample.env_of Sample.wrote_secret Sample.noon)
            "2027-13-01" Sample.start) = Raise (SystemExit (ExitInt 1))
  /\ fst (validate_date (Sample.env_of Sample.wrote_secret Sample.noon)
            "0000-01-01" Sample.start) = Raise (SystemExit (ExitInt 1)).
Proof. repeat split. Qed.



(* ================================================================= *)
(** ** Tags that are not pairs, and repeated keys *)

Lemma split_length (c : ascii) (s : string) :
  length (PyStr.split c s) = S (PyStr.count c s).
Proof.
  induction s as [|a s IH]; simpl; [reflexivity|].
  destruct (Ascii.eqb a c); simpl.
  - rewrite IH. reflexivity.
  - destruct (PyStr.split c s) as [|w ws]; simpl in *; [discriminate|].
    exact IH.
Qed.

Lemma split_pair_count (c : ascii) (s k v : string) :
  PyStr.split c s = [k; v] -> PyStr.count c s = 1%nat.
Proof.
  intros H. pose proof (split_length c s) as Hlen. rewrite H in Hlen.
  simpl in Hlen. lia.
Qed.

Lemma convert_tags_loop_malformed (tags_list : list string) :
  forall (tags_dict : list (string * string)) (st : state),
    Exists (fun tag => PyStr.count "=" tag <> 1%nat) tags_list ->
    convert_tags_loop tags_list tags_dict st = (Raise ValueError, st).
Proof.
  induction tags_list as [|tag rest IH]; intros d st Hex.
  - inversion Hex.
  - simpl.
    destruct (PyStr.split "=" tag) as [|k [|v [|w ws]]] eqn:Hs;
      try reflexivity.
    apply IH. inversion Hex as [? ? Hbad|? ? Hrest]; subst; [|exact Hrest].
    exfalso. apply Hbad. exact (split_pair_count "=" tag Hs).
Qed.

(** X19.  A tag text with a part that does not have exactly one [=], the empty
    text and a text with a trailing comma among them, makes
    [convert_tags] raise [ValueError], whatever the other parts are. *)
Theorem convert_tags_rejects_malformed (tags : string) (st : state) :
  Exists (fun tag => PyStr.count "=" tag <> 1%nat) (PyStr.split "," tags) ->
  convert_tags tags st = (Raise ValueError, st).
Proof.
  intros H. unfold convert_tags. apply convert_tags_loop_malformed. exact H.
Qed.

Lemma convert_tags_rejects_malformed_witness :
  convert_tags "a=1,b" Sample.start = (Raise ValueError, Sample.start)
  /\ convert_tags "a=1," Sample.start = (Raise ValueError, Sample.start)
  /\ convert_tags "a=b=c" Sample.start = (Raise ValueError, Sample.start).
Proof.
  split; [|split]; apply convert_tags_rejects_malformed.
  - apply Exists_cons_tl. apply Exists_cons_hd. discriminate.
  - apply Exists_cons_tl. apply Exists_cons_hd. discriminate.
  - apply Exists_cons_hd. discriminate.
Defined.

Lemma dict_get_set_same (k v : string) (d : list (string * string)) :
  dict_get k (dict_set k v d) = Some v.
Proof.
  induction d as [|[k' v'] d IH]; simpl.
  - rewrite String.eqb_refl. reflexivity.
  - destruct (String.eqb k' k) eqn:Hk; simpl; rewrite Hk; [reflexivity|].
    exact IH.
Qed.

Lemma dict_get_set_other (k k0 v : string) (d : list (string * string)) :
  k0 <> k -> dict_get k (dict_set k0 v d) = dict_get k d.
Proof.
  intros Hne. induction d as [|[k' v'] d IH]; simpl.
  - replace (String.eqb k0 k) with false
      by (symmetry; apply String.eqb_neq; exact Hne).
    reflexivity.
  - destruct (String.eqb k' k0) eqn:Hk; simpl.
    + apply String.eqb_eq in Hk. subst k'.
      replace (String.eqb k0 k) with false
        by (symmetry; apply String.eqb_neq; exact Hne).
      reflexivity.
    + destruct (String.eqb k' k); [reflexivity|exact IH].
Qed.

Lemma dict_set_keys (k v x : string) (d : list (string * string)) :
  In x (map fst (dict_set k v d)) -> x = k \/ In x (map fst d).
Proof.
  induction d as [|[k' v'] d IH]; simpl.
  - intros [H|[]]. left. symmetry. exact H.
  - destruct (String.eqb k' k) eqn:Hk; simpl.
    + intros H. right. exact H.
    + intros [H|H]; [right; left; exact H|].
      destruct (IH H) as [Hx|Hx]; [left; exact Hx|right; right; exact Hx].
Qed.

Lemma dict_set_nodup (k v : string) (d : list (string * string)) :
  NoDup (map fst d) -> NoDup (map fst (dict_set k v d)).
Proof.
  induction d as [|[k' v'] d IH]; simpl; intros Hnd.
  - constructor; [intros []|constructor].
  - inversion Hnd as [|? ? Hnotin Hnd']; subst.
    destruct (String.eqb k' k) eqn:Hk; simpl.
    + constructor; assumption.
    + constructor; [|apply IH; exact Hnd'].
      intros Hin. destruct (dict_set_keys _ _ _ _ Hin) as [Hx|Hx].
      * apply String.eqb_neq in Hk. apply Hk. exact Hx.
      * apply Hnotin. exact Hx.
Qed.

Lemma convert_tags_loop_last (tags_list : list string) :
  forall (d0 d : list (string * string)) (st st' : state),
    convert_tags_loop tags_list d0 st = (Ok d, st') ->
    NoDup (map fst d0) ->
    NoDup (map fst d)
    /\ (forall before tag after,
           tags_list = (before ++ tag :: after)%list ->
           (forall t, In t after -> tag_key t <> tag_key tag) ->
           dict_get (tag_key tag) d = Some (tag_value tag))
    /\ (forall k,
           (forall t, In t tags_list -> tag_key t <> k) ->
           dict_get k d = dict_get k d0).
Proof.
  induction tags_list as [|tag0 rest IH]; intros d0 d st st' Hrun Hnd.
  - simpl in Hrun. injection Hrun as <- _. repeat split.
    + exact Hnd.
    + intros [|x before] tag after H; discriminate H.
  - simpl in Hrun.
    destruct (PyStr.split "=" tag0) as [|k0 [|v0 [|w ws]]] eqn:Hs;
      try discriminate Hrun.
    assert (Hk0 : tag_key tag0 = k0) by (unfold tag_key; rewrite Hs; reflexivity).
    assert (Hv0 : tag_value tag0 = v0)
      by (unfold tag_value; rewrite Hs; reflexivity).
    destruct (IH _ _ _ _ Hrun (dict_set_nodup k0 v0 d0 Hnd))
      as (Hnd' & Hlast & Hother).
    repeat split.
    + exact Hnd'.
    + intros [|x before] tag after Heq Hafter.
      * injection Heq as <- <-.
        rewrite Hk0, Hv0, Hother.
        -- apply dict_get_set_same.
        -- intros t Hin. rewrite <- Hk0. apply Hafter. exact Hin.
      * injection Heq as _ Heq. apply (Hlast before tag after Heq Hafter).
    + intros k Hk. rewrite Hother.
      * apply dict_get_set_other. rewrite <- Hk0. apply Hk. left. reflexivity.
      * intros t Hin. apply Hk. right. exact Hin.
Qed.

(** X20.  The dictionary [convert_tags] returns has every key once, and gives
    for a key the value of the last part of the text that has it. *)
Theorem convert_tags_last_value_wins (tags : string)
  (tags_dict : list (string * string)) (st st' : state) :
  convert_tags tags st = (Ok tags_dict, st') ->
  NoDup (map fst tags_dict)
  /\ forall before tag after,
       PyStr.split "," tags = (before ++ tag :: after)%list ->
       (forall t, In t after -> tag_key t <> tag_key tag) ->
       dict_get (tag_key tag) tags_dict = Some (tag_value tag).
Proof.
  unfold convert_tags. intros Hrun.
  destruct (convert_tags_loop_last _ _ _ Hrun (NoDup_nil _))
    as (Hnd & Hlast & _).
  split; assumption.
Qed.

Lemma convert_tags_last_value_wins_witness :
  dict_get "a" [("a", "3"); ("b", "2")] = Some "3"
  /\ NoDup (map fst [("a", "3"); ("b", "2")]).
Proof.
  destruct (@convert_tags_last_value_wins "a=1,b=2,a=3"
              [("a", "3"); ("b", "2")] Sample.start Sample.start eq_refl)
    as (Hnd & Hlast).
  split; [|exact Hnd].
  apply (Hlast ["a=1"; "b=2"] "a=3" []); [reflexivity|].
  intros t [].
Defined.

(* ================================================================= *)
(** ** How [generate_encryption_keys] and the script end *)

Lemma convert_tags_loop_outcome (tags_list : list string) :
  forall (tags_dict : list (string * string)) (st : state),
    (exists d, convert_tags_loop tags_list tags_dict st = (Ok d, st))
    \/ convert_tags_loop tags_list tags_dict st = (Raise ValueError, st).
Proof.
  induction tags_list as [|tag rest IH]; intros d st; simpl.
  - left. exists d. reflexivity.
  - destruct (PyStr.split "=" tag) as [|k [|v [|w ws]]];
      try (right; reflexivity).
    apply IH.
Qed.

Lemma generate_encryption_keys_cases (env : Env) (args : Namespace.t)
  (st : state) :
  fst (generate_encryption_keys env args st) = Ok tt
  \/ fst (generate_encryption_keys env args st)
     = Raise (SystemExit (ExitInt 1))
  \/ (fst (generate_encryption_keys env args st) = Raise ValueError
      /\ exists t, Namespace.tags args = Some t /\ t <> "")
  \/ (fst (generate_encryption_keys env args st) = Raise OSError
      /\ getlogin env = None).
Proof.
  unfold generate_encryption_keys, bind. rewrite validate_date_eq.
  destruct (Date.strptime _) as [d|];
    [destruct (Date.lt d (now env))|];
    try (right; left; reflexivity).
  unfold tags_of, login_tags, os_getlogin, bind.
  destruct (Namespace.tags args) as [[|a t]|] eqn:Htags;
    cbn [PyStr.truthy].
  - destruct (getlogin env) as [user|] eqn:Hlogin; cbn [ret raise].
    + left. rewrite run_with_settings_dry by apply dry_run_value_truthy.
      reflexivity.
    + right; right; right. split; reflexivity.
  - unfold convert_tags.
    destruct (convert_tags_loop_outcome (PyStr.split "," (String a t)) []
                st) as [(dict & Hok)|Hbad].
    + rewrite Hok. left.
      rewrite run_with_settings_dry by apply dry_run_value_truthy.
      reflexivity.
    + rewrite Hbad. right; right; left. split; [reflexivity|].
      exists (String a t). split; [reflexivity|discriminate].
  - destruct (getlogin env) as [user|] eqn:Hlogin; cbn [ret raise].
    + left. rewrite run_with_settings_dry by apply dry_run_value_truthy.
      reflexivity.
    + right; right; right. split; reflexivity.
Qed.

(** X21.  [generate_encryption_keys] returns, or is left by [SystemExit(1)]
    from [validate_date], by the [ValueError] of [convert_tags] (only
    when tags are given), or by the [OSError] of [os.getlogin] (only when
    they are not); none of the four typed failures can leave it. *)
Theorem generate_encryption_keys_outcomes (env : Env) (args : Namespace.t)
  (st : state) :
  (fst (generate_encryption_keys env args st) = Ok tt
   \/ fst (generate_encryption_keys env args st)
      = Raise (SystemExit (ExitInt 1))
   \/ (fst (generate_encryption_keys env args st) = Raise ValueError
       /\ exists t, Namespace.tags args = Some t /\ t <> "")
   \/ (fst (generate_encryption_keys env args st) = Raise OSError
       /\ getlogin env = None))
  /\ forall e,
       fst (generate_encryption_keys env args st) = Raise e ->
       is_typed_failure e = false.
Proof.
  pose proof (generate_encryption_keys_cases env args st) as H.
  split; [exact H|].
  intros e He.
  destruct H as [H|[H|[[H _]|[H _]]]]; rewrite H in He;
    try discriminate He; injection He as <-; reflexivity.
Qed.

Lemma generate_encryption_keys_outcomes_witness :
  fst (generate_encryption_keys
         (Sample.env_of Sample.wrote_secret Sample.noon)
         (Namespace.mk "0000-1111" "rg" "westeurope" "kv" None None None
            (Some "a=1,b") None)
         Sample.start)
  = Raise ValueError
  /\ is_typed_failure ValueError = false.
Proof.
  split; [reflexivity|].
  apply (proj2 (generate_encryption_keys_outcomes
                  (Sample.env_of Sample.wrote_secret Sample.noon)
                  (Namespace.mk "0000-1111" "rg" "westeurope" "kv" None None
                     None (Some "a=1,b") None)
                  Sample.start) ValueError).
  reflexivity.
Defined.



(* ================================================================= *)
(** ** The workflow after the dry-run test *)

(** Reading the version out of the answer does not touch the state. *)
Lemma secret_version_state (env : Env)
  (key_vault secret_name secret_value content_type expiration_date : string)
  (tags : option (list (string * string))) (st : state) :
  snd (set_secret_and_get_secret_version env key_vault secret_name
         secret_value content_type expiration_date tags st)
  = snd (set_secret env key_vault secret_name secret_value content_type
           expiration_date tags st).
Proof.
  unfold set_secret_and_get_secret_version, bind.
  destruct (set_secret env key_vault secret_name secret_value content_type
              expiration_date tags st) as [[v|e|] st']; try reflexivity.
  destruct v as [| | | |s|l|d]; try reflexivity.
  - destruct s; reflexivity.
  - destruct l as [|x l]; [reflexivity|].
    destruct x; reflexivity.
Qed.

Section WetRun.

Variable env : Env.
Variables subscription_id resource_group location vault_name key_name
  key_version_name expiration : string.
Variable tags : list (string * string).
Variable dry_run : value.

Hypothesis dry_run_falsy : truthy dry_run = false.

Local Arguments String.append : simpl never.

(** With a falsy [dry_run], the workflow is the lines 87-102 run in the
    state reached after the settings are logged. *)
Lemma run_with_settings_wet (st : state) :
  run_with_settings env subscription_id resource_group location vault_name
    key_name key_version_name expiration tags dry_run st
  = (select_subscription env subscription_id ;;
     found <- group_exists env resource_group ;;
     (if negb found then
        log_error_and_exit
          ("Resource group '" ++ resource_group ++ "' does not exist")
      else ret tt) ;;
     found <- vault_exists env resource_group vault_name ;;
     (if negb found then
        log_error_and_exit ("Key vault '" ++ vault_name ++ "' does not exist")
      else ret tt) ;;
     key_id <- set_secret_and_get_secret_version env vault_name key_name
                 (token_hex env DEFAULT_ENCRYPTION_KEY_LEN)
                 "application/octet-stream" expiration (Some tags) ;;
     set_secret_and_get_secret_version env vault_name key_version_name
       key_id "application/octet-stream" expiration (Some tags) ;;
     logger_info
       ("Encryption key '" ++ key_name
        ++ "' and Encryption key version name '" ++ key_version_name
        ++ "' generated successfully.") [])
      (settings_logged env subscription_id resource_group location
         vault_name key_name key_version_name expiration tags dry_run st).
Proof.
  unfold run_with_settings. rewrite dry_run_falsy. cbv beta iota zeta.
  rewrite !bind_logger_info.
  rewrite (logged_one _ _ st), !logged_more. reflexivity.
Qed.

(** X23.  A resource group that [group_exists] does not find ends the workflow:
    the error is logged and [SystemExit(1)] is raised, before the vault
    is looked up and before any secret is written. *)
Theorem workflow_needs_the_resource_group (st st1 st2 : state) :
  select_subscription env subscription_id
    (settings_logged env subscription_id resource_group location vault_name
       key_name key_version_name expiration tags dry_run st)
  = (Ok tt, st1) ->
  group_exists env resource_group st1 = (Ok false, st2) ->
  run_with_settings env subscription_id resource_group location vault_name
    key_name key_version_name expiration tags dry_run st
  = (Raise (SystemExit (ExitInt 1)),
     logged ERROR
       ("Resource group '" ++ resource_group ++ "' does not exist") [] st2).
Proof.
  intros Hselect Hgroup. rewrite run_with_settings_wet.
  unfold bind at 1. rewrite Hselect.
  unfold bind at 1. rewrite Hgroup. cbn [negb].
  unfold bind at 1. unfold log_error_and_exit, bind, logger_error, raise.
  rewrite logger_log_eq. reflexivity.
Qed.

(** X24.  So does a key vault that [vault_exists] does not find, after the
    resource group was found. *)
Theorem workflow_needs_the_vault (st st1 st2 st3 : state) :
  select_subscription env subscription_id
    (settings_logged env subscription_id resource_group location vault_name
       key_name key_version_name expiration tags dry_run st)
  = (Ok tt, st1) ->
  group_exists env resource_group st1 = (Ok true, st2) ->
  vault_exists env resource_group vault_name st2 = (Ok false, st3) ->
  run_with_settings env subscription_id resource_group location vault_name
    key_name key_version_name expiration tags dry_run st
  = (Raise (SystemExit (ExitInt 1)),
     logged ERROR ("Key vault '" ++ vault_name ++ "' does not exist") [] st3).
Proof.
  intros Hselect Hgroup Hvault. rewrite run_with_settings_wet.
  unfold bind at 1. rewrite Hselect.
  unfold bind at 1. rewrite Hgroup. cbn [negb].
  unfold bind at 1. cbn [ret].
  unfold bind at 1. rewrite Hvault. cbn [negb].
  unfold bind at 1. unfold log_error_and_exit, bind, logger_error, raise.
  rewrite logger_log_eq. reflexivity.
Qed.

(** X25.  When the account is selected, group and vault exist and the key is
    written, the value of the key-version secret is the version
    [set_secret_and_get_secret_version] returned for the key: the second
    secret is written under the key-version name with that value, its
    command line carries it after [--value], and success is logged if
    that call returns. *)
Theorem workflow_stores_the_key_version (key_id : string)
  (st st1 st2 st3 st4 : state) :
  select_subscription env subscription_id
    (settings_logged env subscription_id resource_group location vault_name
       key_name key_version_name expiration tags dry_run st)
  = (Ok tt, st1) ->
  group_exists env resource_group st1 = (Ok true, st2) ->
  vault_exists env resource_group vault_name st2 = (Ok true, st3) ->
  set_secret_and_get_secret_version env vault_name key_name
    (token_hex env DEFAULT_ENCRYPTION_KEY_LEN) "application/octet-stream"
    expiration (Some tags) st3
  = (Ok key_id, st4) ->
  run_with_settings env subscription_id resource_group location vault_name
    key_name key_version_name expiration tags dry_run st
  = match set_secret_and_get_secret_version env vault_name key_version_name
            key_id "application/octet-stream" expiration (Some tags) st4 with
    | (Ok _, st5) =>
        (Ok tt,
         logged INFO
           ("Encryption key '" ++ key_name
            ++ "' and Encryption key version name '" ++ key_version_name
            ++ "' generated successfully.") [] st5)
    | (Raise e, st5) => (Raise e, st5)
    | (Diverged, st5) => (Diverged, st5)
    end
  /\ exists n : nat,
       (1 <= n <= 5)%nat
       /\ invocations
            (trace (snd (run_with_settings env subscription_id resource_group
                           location vault_name key_name key_version_name
                           expiration tags dry_run st)))
          = (invocations (trace st4)
             ++ repeat
                  (["keyvault"; "secret"; "set"; "--query"; "[id]";
                    "--vault-name"; vault_name; "--name"; key_version_name;
                    "--value"; key_id;
                    "--content-type"; "application/octet-stream"]
                   ++ (if String.eqb expiration "" then []
                       else ["--expires"; expiration])
                   ++ tag_arguments tags ++ ["--output"; "json"]) n)%list.
Proof.
  intros Hselect Hgroup Hvault Hkey.
  assert (Heq :
    run_with_settings env subscription_id resource_group location vault_name
      key_name key_version_name expiration tags dry_run st
    = match set_secret_and_get_secret_version env vault_name key_version_name
              key_id "application/octet-stream" expiration (Some tags) st4
      with
      | (Ok _, st5) =>
          (Ok tt,
           logged INFO
             ("Encryption key '" ++ key_name
              ++ "' and Encryption key version name '" ++ key_version_name
              ++ "' generated successfully.") [] st5)
      | (Raise e, st5) => (Raise e, st5)
      | (Diverged, st5) => (Diverged, st5)
      end).
  { rewrite run_with_settings_wet.
    unfold bind at 1. rewrite Hselect.
    unfold bind at 1. rewrite Hgroup. cbn [negb].
    unfold bind at 1. cbn [ret].
    unfold bind at 1. rewrite Hvault. cbn [negb].
    unfold bind at 1. cbn [ret].
    unfold bind at 1. rewrite Hkey.
    unfold bind at 1.
    destruct (set_secret_and_get_secret_version env vault_name
                key_version_name key_id "application/octet-stream"
                expiration (Some tags) st4) as [[v|e|] st5];
      try reflexivity.
    unfold logger_info. rewrite logger_log_eq. reflexivity. }
  split; [exact Heq|].
  rewrite Heq.
  destruct (az_invocation_count env
              (set_secret_args vault_name key_version_name key_id
                 "application/octet-stream" expiration (Some tags))
              None st4) as (n & Hn & Hi).
  exists n. split; [exact Hn|].
  assert (Hargs :
    (set_secret_args vault_name key_version_name key_id
       "application/octet-stream" expiration (Some tags)
     ++ ["--output"; "json"])%list
    = (["keyvault"; "secret"; "set"; "--query"; "[id]";
        "--vault-name"; vault_name; "--name"; key_version_name;
        "--value"; key_id; "--content-type"; "application/octet-stream"]
       ++ (if String.eqb expiration "" then []
           else ["--expires"; expiration])
       ++ tag_arguments tags ++ ["--output"; "json"])%list).
  { rewrite set_secret_args_shape, <- !app_assoc. reflexivity. }
  rewrite Hargs in Hi.
  pose proof (secret_version_state env vault_name key_version_name key_id
                "application/octet-stream" expiration (Some tags) st4)
    as Hstate.
  unfold set_secret in Hstate.
  destruct (set_secret_and_get_secret_version env vault_name
              key_version_name key_id "application/octet-stream" expiration
              (Some tags) st4) as [[v|e|] st5];
    cbn [snd] in *; subst st5; rewrite ?logged_invocations; exact Hi.
Qed.

End WetRun.

Lemma workflow_needs_the_resource_group_witness :
  fst (run_with_settings (Sample2.cloud Sample.missing Sample2.found)
         "0000-1111" "rg" "westeurope" "kv" "key" "keyVersion" "2025-09-13"
         [("user", "alice")] (VBool false) Sample.start)
  = Raise (SystemExit (ExitInt 1))
  /\ invocations
       (trace (snd (run_with_settings
                      (Sample2.cloud Sample.missing Sample2.found)
                      "0000-1111" "rg" "westeurope" "kv" "key" "keyVersion"
                      "2025-09-13" [("user", "alice")] (VBool false)
                      Sample.start)))
     = [["account"; "list"; "--query"; "[?isDefault]"; "--output"; "json"];
        ["group"; "show"; "--name"; "rg"; "--output"; "json"]].
Proof.
  rewrite (@workflow_needs_the_resource_group
             (Sample2.cloud Sample.missing Sample2.found)
             "0000-1111" "rg" "westeurope" "kv" "key" "keyVersion"
             "2025-09-13" [("user", "alice")] (VBool false) eq_refl
             Sample.start _ _ eq_refl eq_refl).
  split; reflexivity.
Defined.

Lemma workflow_needs_the_vault_witness :
  fst (run_with_settings (Sample2.cloud Sample2.found Sample.missing)
         "0000-1111" "rg" "westeurope" "kv" "key" "keyVersion" "2025-09-13"
         [("user", "alice")] (VBool false) Sample.start)
  = Raise (SystemExit (ExitInt 1))
  /\ invocations
       (trace (snd (run_with_settings
                      (Sample2.cloud Sample2.found Sample.missing)
                      "0000-1111" "rg" "westeurope" "kv" "key" "keyVersion"
                      "2025-09-13" [("user", "alice")] (VBool false)
                      Sample.start)))
     = [["account"; "list"; "--query"; "[?isDefault]"; "--output"; "json"];
        ["group"; "show"; "--name"; "rg"; "--output"; "json"];
        ["keyvault"; "show"; "--name"; "kv"; "--resource-group"; "rg";
         "--output"; "json"]].
Proof.
  rewrite (@workflow_needs_the_vault
             (Sample2.cloud Sample2.found Sample.missing)
             "0000-1111" "rg" "westeurope" "kv" "key" "keyVersion"
             "2025-09-13" [("user", "alice")] (VBool false) eq_refl
             Sample.start _ _ _ eq_refl eq_refl eq_refl).
  split; reflexivity.
Defined.

Lemma workflow_stores_the_key_version_witness :
  exists n : nat,
    (1 <= n <= 5)%nat
    /\ skipn 4
         (invocations
            (trace (snd (run_with_settings
                           (Sample2.cloud Sample2.found Sample2.found)
                           "0000-1111" "rg" "westeurope" "kv" "key"
                           "keyVersion" "2025-09-13" [("user", "alice")]
                           (VBool false) Sample.start))))
       = repeat
           ["keyvault"; "secret"; "set"; "--query"; "[id]";
            "--vault-name"; "kv"; "--name"; "keyVersion";
            "--value"; "0123abcd";
            "--content-type"; "application/octet-stream";
            "--expires"; "2025-09-13"; "--tags"; "user=alice";
            "--output"; "json"] n.
Proof.
  destruct (@workflow_stores_the_key_version
              (Sample2.cloud Sample2.found Sample2.found)
              "0000-1111" "rg" "westeurope" "kv" "key" "keyVersion"
              "2025-09-13" [("user", "alice")] (VBool false) eq_refl
              "0123abcd" Sample.start _ _ _ _ eq_refl eq_refl eq_refl eq_refl)
    as (_ & n & Hn & Hi).
  exists n. split; [exact Hn|]. rewrite Hi. reflexivity.
Defined.

(* ================================================================= *)
(** ** Further edges *)

(** X12.  When [account list] prints nothing, [az] returns [None], and the
    iteration of line 23 over it raises [TypeError], which is none of
    the typed failures; [AzCliAccessException] is not raised. *)
Theorem select_subscription_needs_an_answer (env : Env)
  (subscription_id : string) (st : state) :
  invoked (run_at env account_list_args st) = Returns 0 ->
  out_file (run_at env account_list_args st) = "" ->
  result (run_at env account_list_args st) = None ->
  fst (select_subscription env subscription_id st) = Raise TypeError
  /\ is_typed_failure TypeError = false.
Proof.
  intros H Hout Hres. split; [|reflexivity].
  pose proof (az_wrapped_empty env account_list_args None st H Hout) as Hw.
  rewrite Hres in Hw.
  unfold select_subscription, bind.
  change ["account"; "list"; "--query"; "[?isDefault]"]
    with account_list_args.
  rewrite az_first_attempt by (rewrite Hw; reflexivity).
  destruct (az_wrapped env account_list_args None st) as [r st'].
  simpl in Hw. subst r. reflexivity.
Qed.

Lemma select_subscription_needs_an_answer_witness :
  fst (select_subscription (Sample.env_of Sample.silent Sample.noon)
         "0000-1111" Sample.start)
  = Raise TypeError.
Proof.
  apply (proj1 (select_subscription_needs_an_answer
                  (Sample.env_of Sample.silent Sample.noon) "0000-1111"
                  Sample.start eq_refl eq_refl eq_refl)).
Defined.

Section Redaction.

Variable env : Env.
Variable args : list string.
Variables redact1 redact2 : option (list string).

(** The outcome of an attempt depends on the run of the CLI only, not on
    the values to redact. *)
Lemma az_wrapped_outcome_by_run (st1 st2 : state) :
  invocations (trace st1) = invocations (trace st2) ->
  fst (az_wrapped env args redact1 st1) = fst (az_wrapped env args redact2 st2).
Proof.
  intros Hinv.
  assert (Hrun : run_at env args st1 = run_at env args st2)
    by (unfold run_at; rewrite Hinv; reflexivity).
  destruct (invoked (run_at env args st1)) as [c|code] eqn:H1;
    pose proof H1 as H2; rewrite Hrun in H2.
  - rewrite (az_wrapped_returned_eq env args redact1 st1 H1),
      (az_wrapped_returned_eq env args redact2 st2 H2).
    cbv zeta. rewrite Hrun.
    destruct (PyStr.truthy _ && (c =? 0));
      [destruct (json_loads env _)
      |destruct (result _) as [[[err|]]|]]; reflexivity.
  - rewrite (az_wrapped_system_exit_eq env args redact1 st1 H1),
      (az_wrapped_system_exit_eq env args redact2 st2 H2).
    rewrite Hrun. reflexivity.
Qed.

Lemma attempts_by_run (more : nat) :
  forall st1 st2,
    invocations (trace st1) = invocations (trace st2) ->
    sleeps (trace st1) = sleeps (trace st2) ->
    fst (attempts more (az_wrapped env args redact1) st1)
    = fst (attempts more (az_wrapped env args redact2) st2)
    /\ invocations (trace (snd (attempts more (az_wrapped env args redact1)
                                  st1)))
       = invocations (trace (snd (attempts more (az_wrapped env args redact2)
                                    st2)))
    /\ sleeps (trace (snd (attempts more (az_wrapped env args redact1) st1)))
       = sleeps (trace (snd (attempts more (az_wrapped env args redact2)
                               st2))).
Proof.
  induction more as [|more IH]; intros st1 st2 Hinv Hsl;
    pose proof (az_wrapped_outcome_by_run st1 st2 Hinv) as Hfst;
    destruct (az_wrapped_effect env args redact1 st1) as (Hi1 & Hs1 & _ & _);
    destruct (az_wrapped_effect env args redact2 st2) as (Hi2 & Hs2 & _ & _);
    simpl;
    destruct (az_wrapped env args redact1 st1) as [r1 st1'];
    destruct (az_wrapped env args redact2 st2) as [r2 st2'];
    cbn [fst snd] in *; subst r2;
    assert (Hinv' : invocations (trace st1') = invocations (trace st2'))
      by (rewrite Hi1, Hi2, Hinv; reflexivity);
    assert (Hsl' : sleeps (trace st1') = sleeps (trace st2'))
      by (rewrite Hs1, Hs2, Hsl; reflexivity);
    destruct r1 as [v|e|]; cbn [fst snd]; try (repeat split; assumption);
    destruct (is_service_unavailable e); cbn [fst snd];
    try (repeat split; assumption).
  apply IH; simpl; rewrite ?invocations_app, ?sleeps_app, ?Hinv', ?Hsl';
    reflexivity.
Qed.

End Redaction.

(** X6.  The values to redact change the text of the log record and nothing
    else: with and without them [az] ends the same way, after the same
    invocations, with the unredacted arguments, and the same sleeps. *)
Theorem az_redaction_only_changes_the_log (env : Env) (args : list string)
  (redact_values : option (list string)) (st : state) :
  fst (az env args redact_values st) = fst (az env args None st)
  /\ invocations (trace (snd (az env args redact_values st)))
     = invocations (trace (snd (az env args None st)))
  /\ sleeps (trace (snd (az env args redact_values st)))
     = sleeps (trace (snd (az env args None st)))
  /\ exists n : nat,
       (1 <= n <= 5)%nat
       /\ invocations (trace (snd (az env args redact_values st)))
          = (invocations (trace st)
             ++ repeat (args ++ ["--output"; "json"]) n)%list.
Proof.
  rewrite !az_attempts.
  destruct (attempts_by_run env args redact_values None 4 st st
              eq_refl eq_refl) as (Hf & Hi & Hs).
  repeat split; try assumption.
  rewrite <- az_attempts. apply az_invocation_count.
Qed.

Example az_redacts_the_log_only :
  trace (snd (az (Sample.env_of Sample.wrote_secret Sample.noon)
                ["keyvault"; "secret"; "set"; "--value"; "c0ffee"]
                (Some ["c0ffee"]) Sample.start))
  = [Log INFO "az - Executing az %s"
       [VStr "keyvault secret set --value ***** --output json"];
     Invoke ["keyvault"; "secret"; "set"; "--value"; "c0ffee";
             "--output"; "json"]].
Proof. reflexivity. Qed.

(* ----------------------------------------------------------------- *)

Section LastSegment.

Variable c : ascii.

Lemma split_last_no_separator (s : string) :
  PyStr.count c (last (PyStr.split c s) EmptyString) = 0%nat.
Proof.
  induction s as [|a s IH]; simpl; [reflexivity|].
  destruct (Ascii.eqb a c) eqn:Hac.
  - pose proof (split_not_nil c s) as Hne.
    destruct (PyStr.split c s) as [|w ws]; [congruence|]. exact IH.
  - destruct (PyStr.split c s) as [|w ws] eqn:Hs.
    + exfalso. exact (split_not_nil c s Hs).
    + destruct ws as [|w' ws]; [|exact IH].
      simpl in *. rewrite Hac, IH. reflexivity.
Qed.

Lemma last_cons2 (A : Type) (x y : A) (l : list A) (dflt : A) :
  last (x :: y :: l) dflt = last (y :: l) dflt.
Proof. reflexivity. Qed.

Lemma split_last_suffix (s : string) :
  exists prefix,
    s = (prefix ++ last (PyStr.split c s) EmptyString)%string
    /\ (prefix = EmptyString
        \/ exists p, prefix = (p ++ String c EmptyString)%string).
Proof.
  induction s as [|a s IH].
  - exists EmptyString. split; [reflexivity|left; reflexivity].
  - destruct IH as (prefix & Heq & Hprefix).
    pose proof (split_last_no_separator s) as Hno.
    pose proof (join_split c s) as Hj.
    cbn [PyStr.split].
    destruct (PyStr.split c s) as [|w ws] eqn:Hs;
      [exfalso; exact (split_not_nil c s Hs)|].
    destruct (Ascii.eqb a c) eqn:Hac.
    + apply Ascii.eqb_eq in Hac. subst a.
      rewrite last_cons2.
      exists (String c prefix). split.
      * cbn [append]. rewrite <- Heq. reflexivity.
      * right. destruct Hprefix as [->|(p & ->)].
        -- exists EmptyString. reflexivity.
        -- exists (String c p). reflexivity.
    + destruct ws as [|w' ws].
      * exists EmptyString. split; [|left; reflexivity].
        unfold PyStr.join in Hj. cbn [String.concat] in Hj.
        cbn [last append]. rewrite Hj. reflexivity.
      * rewrite last_cons2. rewrite last_cons2 in Heq, Hno.
        exists (String a prefix). split.
        -- cbn [append]. rewrite <- Heq. reflexivity.
        -- right. destruct Hprefix as [->|(p & ->)].
           ++ exfalso. cbn [append] in Heq. rewrite <- Heq in Hno.
              rewrite (split_without c s Hno) in Hs. discriminate Hs.
           ++ exists (String a p). reflexivity.
Qed.

End LastSegment.

(** X15.  The version [set_secret_and_get_secret_version] returns is the end of
    the identifier after its last slash: it has no slash, and the
    identifier is the version itself or ends with a slash and the
    version. *)
Theorem secret_version_is_last_segment (env : Env)
  (key_vault secret_name secret_value content_type expiration_date : string)
  (tags : option (list (string * string))) (id : string) (rest : list value)
  (st st' : state) :
  set_secret env key_vault secret_name secret_value content_type
    expiration_date tags st = (Ok (VList (VStr id :: rest)), st') ->
  exists version prefix,
    set_secret_and_get_secret_version env key_vault secret_name secret_value
      content_type expiration_date tags st = (Ok version, st')
    /\ PyStr.count "/" version = 0%nat
    /\ id = (prefix ++ version)%string
    /\ (prefix = "" \/ exists p, prefix = (p ++ "/")%string).
Proof.
  intros H.
  destruct (split_last_suffix "/" id) as (prefix & Heq & Hprefix).
  exists (last (PyStr.split "/" id) ""), prefix.
  split; [|split; [|split]].
  - unfold set_secret_and_get_secret_version, bind. rewrite H. reflexivity.
  - apply split_last_no_separator.
  - exact Heq.
  - exact Hprefix.
Qed.

Lemma secret_version_is_last_segment_witness :
  exists version prefix,
    set_secret_and_get_secret_version
      (Sample.env_of Sample.wrote_secret Sample.noon)
      "kv" "symmetricKey" "00ff" "application/octet-stream" "2025-09-13"
      None Sample.start
    = (Ok version,
       snd (set_secret (Sample.env_of Sample.wrote_secret Sample.noon)
              "kv" "symmetricKey" "00ff" "application/octet-stream"
              "2025-09-13" None Sample.start))
    /\ PyStr.count "/" version = 0%nat
    /\ Sample.secret_id = (prefix ++ version)%string
    /\ (prefix = "" \/ exists p, prefix = (p ++ "/")%string).
Proof.
  apply (@secret_version_is_last_segment
           (Sample.env_of Sample.wrote_secret Sample.noon)
           "kv" "symmetricKey" "00ff" "application/octet-stream" "2025-09-13"
           None Sample.secret_id [] Sample.start _ eq_refl).
Defined.

(* ----------------------------------------------------------------- *)

Lemma strptime_midnight (s : string) (d : datetime) :
  Date.strptime s = Some d ->
  hour d = 0 /\ minute d = 0 /\ second d = 0 /\ microsecond d = 0.
Proof.
  intros H. destruct (strptime_fields s H) as (_ & _ & _ & Hmid).
  exact Hmid.
Qed.

(** X17.  [validate_date] compares the midnight of the date with the current
    time: the date of the current day is rejected as soon as the day has
    begun, and the date of any later day is accepted. *)
Theorem validate_date_by_day (env : Env) (date : string) (d : datetime)
  (st : state) :
  Date.strptime date = Some d ->
  (year d = year (now env) -> month d = month (now env) ->
   day d = day (now env) ->
   0 <= hour (now env) -> 0 <= minute (now env) ->
   0 <= second (now env) -> 0 <= microsecond (now env) ->
   0 < hour (now env) + minute (now env) + second (now env)
       + microsecond (now env) ->
   fst (validate_date env date st) = Raise (SystemExit (ExitInt 1)))
  /\ (year (now env) < year d
      \/ (year (now env) = year d /\ month (now env) < month d)
      \/ (year (now env) = year d /\ month (now env) = month d
          /\ day (now env) < day d) ->
      validate_date env date st = (Ok tt, st)).
Proof.
  intros Hparse.
  destruct (strptime_midnight date Hparse) as (Hh & Hmi & Hs & Hus).
  rewrite validate_date_eq, Hparse.
  unfold Date.lt, Date.fields. rewrite Hh, Hmi, Hs, Hus. split.
  - intros Hy Hm Hd H0 H1 H2 H3 Hpos. rewrite Hy, Hm, Hd.
    cbn [Date.lex_lt]. rewrite !Z.ltb_irrefl, !Z.eqb_refl.
    cbn [orb andb].
    destruct (Z.ltb_spec 0 (hour (now env))); [reflexivity|].
    replace (hour (now env)) with 0 in * by lia. cbn [Z.eqb orb andb].
    destruct (Z.ltb_spec 0 (minute (now env))); [reflexivity|].
    replace (minute (now env)) with 0 in * by lia. cbn [Z.eqb orb andb].
    destruct (Z.ltb_spec 0 (second (now env))); [reflexivity|].
    replace (second (now env)) with 0 in * by lia. cbn [Z.eqb orb andb].
    destruct (Z.ltb_spec 0 (microsecond (now env))); [reflexivity|].
    lia.
  - intros Hlater. cbn [Date.lex_lt].
    destruct Hlater as [Hy|[[Hy Hm]|[Hy [Hm Hd]]]].
    + replace (year d <? year (now env)) with false
        by (symmetry; apply Z.ltb_ge; lia).
      replace (year d =? year (now env)) with false
        by (symmetry; apply Z.eqb_neq; lia).
      reflexivity.
    + rewrite <- Hy, Z.ltb_irrefl, Z.eqb_refl.
      replace (month d <? month (now env)) with false
        by (symmetry; apply Z.ltb_ge; lia).
      replace (month d =? month (now env)) with false
        by (symmetry; apply Z.eqb_neq; lia).
      reflexivity.
    + rewrite <- Hy, <- Hm, !Z.ltb_irrefl, !Z.eqb_refl.
      replace (day d <? day (now env)) with false
        by (symmetry; apply Z.ltb_ge; lia).
      replace (day d =? day (now env)) with false
        by (symmetry; apply Z.eqb_neq; lia).
      reflexivity.
Qed.

Lemma validate_date_by_day_witness :
  fst (validate_date (Sample.env_of Sample.wrote_secret Sample.noon)
         "2025-06-15" Sample.start)
  = Raise (SystemExit (ExitInt 1))
  /\ validate_date (Sample.env_of Sample.wrote_secret Sample.noon)
       "2025-06-16" Sample.start
     = (Ok tt, Sample.start).
Proof.
  split.
  - apply (proj1 (@validate_date_by_day
                    (Sample.env_of Sample.wrote_secret Sample.noon)
                    "2025-06-15" (mkDatetime 2025 6 15 0 0 0 0) Sample.start
                    eq_refl)); simpl; lia.
  - apply (proj2 (@validate_date_by_day
                    (Sample.env_of Sample.wrote_secret Sample.noon)
                    "2025-06-16" (mkDatetime 2025 6 16 0 0 0 0) Sample.start
                    eq_refl)).
    simpl. lia.
Defined.
